(** * Actor-critic training: a model of [trax/rl/actor_critic.py]

    The development follows the Python module class by class.  Arrays are
    NumPy arrays over the real numbers (floating-point rounding, overflow
    and NaN are outside the model); a rank-2 array indexed [batch, time]
    is the list of its rows.  The supervised trainer, the value model, the
    RL task and the [PolicyTrainer] base class live outside the module and
    appear as interfaces. *)

From Stdlib Require Import Reals Lra Lia ZArith List String Ascii.
From stdpp Require Import base option list strings gmap.
Import ListNotations.

(** ** Python results: a value or a raised exception *)

Module Py.

Inductive exn : Type :=
| AssertionError
| AttributeError
| NotImplementedError
| StopIteration
| TypeError
| ValueError.

Inductive result (A : Type) : Type :=
| Ok (a : A)
| Raise (e : exn).
Arguments Ok {A} a.
Arguments Raise {A} e.

Definition bind {A B} (r : result A) (k : A -> result B) : result B :=
  match r with
  | Ok a => k a
  | Raise e => Raise e
  end.

(** Evaluates a list of computations left to right; the first exception
    wins. *)
Fixpoint sequence {A} (rs : list (result A)) : result (list A) :=
  match rs with
  | [] => Ok []
  | r :: rs' =>
      bind r (fun a => bind (sequence rs') (fun l => Ok (a :: l)))
  end.

(** Values that travel through keyword arguments. [PyObj] is an opaque
    object (a model factory, an optimizer, ...) known by its identity. *)
Inductive value : Type :=
| PyNone
| PyBool (b : bool)
| PyInt (z : Z)
| PyFloat (r : R)
| PyStr (s : string)
| PyObj (id : nat).

(** Truth value of [if v:]. *)
Definition truthy (v : value) : bool :=
  match v with
  | PyNone => false
  | PyBool b => b
  | PyInt z => negb (z =? 0)%Z
  | PyFloat r => if Req_dec_T r 0 then false else true
  | PyStr s => negb (String.eqb s "")
  | PyObj _ => true
  end.

(** A generator: [body n] is the outcome of running the loop body on the
    [n]-th element of the underlying source.  Once the body raises, the
    generator is finished and every later [next] raises StopIteration. *)
Record generator : Type := Generator { pos : nat; finished : bool }.

Definition fresh : generator := Generator 0 false.

Definition next {A} (body : nat -> result A) (g : generator)
  : result A * generator :=
  if finished g then (Raise StopIteration, g)
  else match body (pos g) with
       | Ok a => (Ok a, Generator (S (pos g)) false)
       | Raise e => (Raise e, Generator (pos g) true)
       end.

End Py.

Import Py.

Notation "x <- r ;; k" := (Py.bind r (fun x => k))
(at level 100, r at next level, right associativity,
 format "x  <-  r  ;;  '//' k").

(** ** NumPy arrays *)

Module Np.

(** Rank-2 array [batch, time] and rank-3 array [batch, time, depth]. *)
Definition array2 (A : Type) : Type := list (list A).
Definition array3 (A : Type) : Type := list (list (list A)).

(** [a.shape == (B, T)] and [a.shape == (B, T, D)]. *)
Definition has_shape2 {A} (a : array2 A) (B T : nat) : bool :=
  (length a =? B) && forallb (fun row => length row =? T) a.

Definition has_shape3 {A} (a : array3 A) (B T D : nat) : bool :=
  (length a =? B) && forallb (fun row => has_shape2 row T D) a.

(** [a[b, t]], with 0 outside the array. *)
Definition at2 (a : array2 R) (b t : nat) : R := nth t (nth b a []) 0%R.

(** [a[:, :-1]] and [a[:, 1:]]: slices along the time axis. *)
Definition drop_last {A} (a : array2 A) : array2 A := map (@removelast A) a.
Definition drop_first {A} (a : array2 A) : array2 A := map (@tl A) a.

(** [a[:, :, None]]: a new trailing axis of length one. *)
Definition new_axis {A} (a : array2 A) : array3 A :=
  map (map (fun x => [x])) a.

(** [np.squeeze(a, axis=2)]: ValueError unless that axis has length 1. *)
Definition squeeze {A} (dflt : A) (a : array3 A) : result (array2 A) :=
  if forallb (forallb (fun cell => length cell =? 1)) a
  then Ok (map (map (fun cell => hd dflt cell)) a)
  else Raise ValueError.

(** One axis of NumPy broadcasting: equal lengths pair up, a length-one
    operand is repeated, anything else cannot be broadcast. *)
Definition broadcast_axis {A B C} (f : A -> B -> result C)
    (a : list A) (b : list B) : result (list C) :=
  if length a =? length b then sequence (zip_with f a b)
  else match a, b with
       | [x], _ => sequence (map (f x) b)
       | _, [y] => sequence (map (fun x => f x y) a)
       | _, _ => Raise ValueError
       end.

(** Elementwise binary operation on two rank-2 arrays. *)
Definition binop (f : R -> R -> R) (a b : array2 R) : result (array2 R) :=
  broadcast_axis (broadcast_axis (fun x y => Ok (f x y))) a b.

(** Elementwise operation with a scalar, and elementwise function. *)
Definition pointwise (f : R -> R) (a : array2 R) : array2 R :=
  map (map f) a.

Definition add := binop Rplus.
Definition sub := binop Rminus.
Definition mul := binop Rmult.
Definition div := binop Rdiv.
Definition exp := pointwise Rtrigo_def.exp.
Definition scale (c : R) := pointwise (Rmult c).
Definition div_scalar (a : array2 R) (c : R) := pointwise (fun x => Rdiv x c) a.
Definition minimum (a : array2 R) (c : R) := pointwise (fun x => Rmin x c) a.

(** [jax.lax.clamp(lo, x, hi)] with scalar bounds. *)
Definition clamp (lo : R) (x : array2 R) (hi : R) : array2 R :=
  pointwise (fun v => Rmin (Rmax lo v) hi) x.

(** [np.stack([a, b], 0)]: the operands must have the same shape. *)
Definition stack2 (a b : array2 R) : result (array3 R) :=
  if (length a =? length b)
     && forallb (fun p => length (fst p) =? length (snd p)) (zip a b)
  then Ok [a; b]
  else Raise ValueError.

(** [np.min(s, 0)]: minimum along the leading axis. *)
Definition min_axis0 (s : array3 R) : result (array2 R) :=
  match s with
  | [] => Raise ValueError
  | a :: rest => Ok (fold_left (zip_with (zip_with Rmin)) rest a)
  end.

(** [a.mean()]: the mean of all elements. *)
Definition total (a : array2 R) : R := fold_right Rplus 0%R (concat a).
Definition size (a : array2 R) : nat := length (concat a).
Definition mean (a : array2 R) : R := (total a / INR (size a))%R.

End Np.

(** ** [os.path.join] on a POSIX system (Python standard library) *)

Module PosixPath.

Definition sep : ascii := "/"%char.

Definition startswith_sep (s : string) : bool :=
  match s with
  | String c _ => Ascii.eqb c sep
  | EmptyString => false
  end.

Fixpoint endswith_sep (s : string) : bool :=
  match s with
  | EmptyString => false
  | String c EmptyString => Ascii.eqb c sep
  | String _ s' => endswith_sep s'
  end.

(** The separator occurs somewhere in the string. *)
Fixpoint contains_sep (s : string) : bool :=
  match s with
  | EmptyString => false
  | String c s' => Ascii.eqb c sep || contains_sep s'
  end.

(** One round of the loop [for b in p] of [posixpath.join]. *)
Definition join_step (path b : string) : string :=
  if startswith_sep b then b
  else if String.eqb path "" || endswith_sep path then (path ++ b)%string
  else (path ++ String sep b)%string.

Definition join (a : string) (p : list string) : string :=
  fold_left join_step p a.

(** [p] lies directly or deeper below the directory [d]: it is what
    joining [d] with some non-empty relative path gives. *)
Definition below (d p : string) : Prop :=
  exists rel : string,
    rel <> ""%string /\ startswith_sep rel = false /\ p = join d [rel].

End PosixPath.

(** ** Trajectories and the RL task (external) *)

Section Trajectories.

Context {Obs Act : Type}.

(** [TrajectoryNp]: a batch of trajectory slices, every field indexed
    [batch, time]; trailing feature axes of observations and actions
    are part of [Obs] and [Act]. *)
Record TrajectoryNp : Type := {
  observations : Np.array2 Obs;
  actions : Np.array2 Act;
  log_probs : Np.array2 R;
  rewards : Np.array2 R;
  returns : Np.array2 R;
  mask : Np.array2 R
}.

(** A keyword argument of a call: left out, or passed. *)
Inductive kwarg (A : Type) : Type :=
| NotPassed
| Passed (a : A).

(** The arguments of one call of [task.trajectory_batch_stream]. *)
Record stream_call : Type := {
  arg_batch_size : nat;
  kw_epochs : kwarg (option (list Z));
  kw_max_slice_length : kwarg (option nat);
  kw_include_final_state : kwarg bool;
  kw_sample_trajectories_uniformly : kwarg bool
}.

(** The [RLTask] object: its discount, the number of epochs
    (generations) of trajectories it retains, and its batch stream,
    [trajectory_batch_stream call n] being the [n]-th batch the stream
    opened by [call] yields. *)
Record RLTask : Type := {
  gamma : R;
  n_epochs : nat;
  trajectory_batch_stream : stream_call -> nat -> TrajectoryNp
}.

End Trajectories.

Arguments TrajectoryNp : clear implicits.
Arguments RLTask : clear implicits.
Arguments NotPassed {A}.
Arguments Passed {A} a.

(** Modelled from the spec: the Trajectory Source is not part of the module.
  Its epoch filter restricts sampling to the listed generations of
  collected trajectories, [-1] naming the most recent one (indices count
  from the end as in Python); no filter means the full retained
  history. *)
Definition epochs_sampled (n_epochs : nat) (filter : kwarg (option (list Z)))
: list nat :=
match filter with
| Passed (Some l) => map (fun e => Z.to_nat (e mod Z.of_nat n_epochs)) l
| Passed None | NotPassed => seq 0 n_epochs
end.

(** Modelled from the spec: [shapes.assert_shape_equals] is not part of the
  module.  It asserts that the array has exactly the given shape and
  fails loudly otherwise. *)
Definition assert_shape_equals {A} (a : Np.array3 A) (shape : nat * nat * nat)
: result unit :=
let '(B, T, D) := shape in
if Np.has_shape3 a B T D then Ok tt else Raise AssertionError.

(** ** What the batch streams yield *)

Inductive batch (Obs Act : Type) : Type :=
| ValueBatch (obs : Np.array2 Obs) (targets weights : Np.array3 R)
| Inputs3 (obs : Np.array2 Obs) (act : Np.array2 Act) (x : Np.array2 R)
| Inputs4 (obs : Np.array2 Obs) (act : Np.array2 Act) (x1 x2 : Np.array2 R)
| ExceptionClass (e : exn).
Arguments ValueBatch {Obs Act} obs targets weights.
Arguments Inputs3 {Obs Act} obs act x.
Arguments Inputs4 {Obs Act} obs act x1 x2.
Arguments ExceptionClass {Obs Act} e.

(** ** The supervised trainer (external)

  [supervised.Trainer]: the [model_weights] property with its setter, and
  [train_epoch(n_steps, n_eval_steps)], which pulls batches from the
  stream the trainer was built with; an exception raised while a batch
  is produced leaves through [train_epoch]. *)
Class SupervisedTrainer (Block Batch T : Type) : Type := {
model_weights : T -> list Block;
set_model_weights : list Block -> T -> T;
trainer_train_epoch : nat -> nat -> (nat -> result Batch) -> T -> result T
}.

(** The contract the coordinator relies on: the setter stores what it is
  given, and training updates parameter values without changing the
  number of parameter blocks. *)
Class SupervisedTrainerLaws {Block Batch T} (S : SupervisedTrainer Block Batch T)
: Prop := {
model_weights_set : forall w t, model_weights (set_model_weights w t) = w;
train_epoch_blocks : forall n m s t t',
  trainer_train_epoch n m s t = Ok t' ->
  length (model_weights t') = length (model_weights t)
}.

(** ** The coordinator and its subclasses *)

Section ActorCritic.

Context {Obs Act Block T : Type}.
Context {trainer : SupervisedTrainer Block (batch Obs Act) T}.

Local Abbreviation Trajectory := (TrajectoryNp Obs Act).
Local Abbreviation Batch := (batch Obs Act).

(** The class an instance belongs to, with the attributes the subclass
    constructor sets.  Nothing in the module assigns the attribute
    [old_log_probs] that [PPOTrainer.ppo_loss] reads; it is [None] until
    somebody outside sets it. *)
Inductive subclass : Type :=
| Base
| AWR (beta w_max : R)
| A2C
| PPO (ppo_eps : R) (old_log_probs : option (Np.array2 R)).

(** The instance attributes.  The last four are set by
    [PolicyTrainer.__init__]; [value_eval_model w obs] is the evaluation
    copy of the value model run with weights [w]. *)
Record ActorCriticTrainer : Type := {
  class_of : subclass;
  on_policy : bool;
  n_shared_layers : Z;
  value_batch_size : nat;
  value_train_steps_per_epoch : nat;
  task : RLTask Obs Act;
  max_slice_length : option nat;
  value_trainer : T;
  value_eval_model : list Block -> Np.array2 Obs -> Np.array3 R;
  policy_trainer : T;
  policy_batch_size : nat;
  policy_train_steps_per_epoch : nat
}.

Definition with_value_trainer (self : ActorCriticTrainer) (t : T) :=
  {| class_of := class_of self; on_policy := on_policy self;
     n_shared_layers := n_shared_layers self;
     value_batch_size := value_batch_size self;
     value_train_steps_per_epoch := value_train_steps_per_epoch self;
     task := task self; max_slice_length := max_slice_length self;
     value_trainer := t;
     value_eval_model := value_eval_model self;
     policy_trainer := policy_trainer self;
     policy_batch_size := policy_batch_size self;
     policy_train_steps_per_epoch := policy_train_steps_per_epoch self |}.

Definition with_policy_trainer (self : ActorCriticTrainer) (t : T) :=
  {| class_of := class_of self; on_policy := on_policy self;
     n_shared_layers := n_shared_layers self;
     value_batch_size := value_batch_size self;
     value_train_steps_per_epoch := value_train_steps_per_epoch self;
     task := task self; max_slice_length := max_slice_length self;
     value_trainer := value_trainer self;
     value_eval_model := value_eval_model self;
     policy_trainer := t;
     policy_batch_size := policy_batch_size self;
     policy_train_steps_per_epoch := policy_train_steps_per_epoch self |}.

(** *** [value_batches_stream] *)

Definition value_stream_call (self : ActorCriticTrainer) : stream_call :=
  {| arg_batch_size := value_batch_size self;
     kw_epochs := NotPassed;
     kw_max_slice_length := Passed (max_slice_length self);
     kw_include_final_state := NotPassed;
     kw_sample_trajectories_uniformly := NotPassed |}.

Definition value_batches_stream (self : ActorCriticTrainer) (n : nat)
  : result Batch :=
  let np_trajectory :=
    trajectory_batch_stream (task self) (value_stream_call self) n in
  Ok (ValueBatch (observations np_trajectory)
                 (Np.new_axis (returns np_trajectory))
                 (Np.new_axis (mask np_trajectory))).

(** *** [policy_inputs], one definition per class *)

(** The base class returns the exception class; it does not raise it. *)
Definition ActorCriticTrainer_policy_inputs
    (trajectory : Trajectory) (values : Np.array2 R) : result Batch :=
  Ok (ExceptionClass NotImplementedError).

Definition AWR_td_advantage (gamma : R) (trajectory : Trajectory)
    (values : Np.array2 R) : result (Np.array2 R) :=
  let rew := Np.drop_last (rewards trajectory) in
  x <- Np.add rew (Np.scale gamma (Np.drop_first values)) ;;
  Np.sub x (Np.drop_last values).

Definition AWRTrainer_policy_inputs (gamma beta w_max : R)
    (trajectory : Trajectory) (values : Np.array2 R) : result Batch :=
  td_advantage <- AWR_td_advantage gamma trajectory values ;;
  let awr_weights :=
    Np.minimum (Np.exp (Np.div_scalar td_advantage beta)) w_max in
  Ok (Inputs3 (Np.drop_last (observations trajectory))
              (Np.drop_last (actions trajectory))
              awr_weights).

Definition AdvantageActorCriticTrainer_policy_inputs
    (trajectory : Trajectory) (values : Np.array2 R) : result Batch :=
  advantages <-
    Np.sub (Np.drop_last (returns trajectory)) (Np.drop_last values) ;;
  Ok (Inputs3 (observations trajectory) (actions trajectory) advantages).

Definition PPOTrainer_policy_inputs
    (trajectory : Trajectory) (values : Np.array2 R) : result Batch :=
  advantages <-
    Np.sub (Np.drop_last (returns trajectory)) (Np.drop_last values) ;;
  let old_log_probs := Np.drop_last (log_probs trajectory) in
  Ok (Inputs4 (observations trajectory) (actions trajectory)
              advantages old_log_probs).

(** [self.policy_inputs(...)]: dispatch on the class of the instance. *)
Definition policy_inputs (self : ActorCriticTrainer)
    (trajectory : Trajectory) (values : Np.array2 R) : result Batch :=
  match class_of self with
  | Base => ActorCriticTrainer_policy_inputs trajectory values
  | AWR beta w_max =>
      AWRTrainer_policy_inputs (gamma (task self)) beta w_max
                               trajectory values
  | A2C => AdvantageActorCriticTrainer_policy_inputs trajectory values
  | PPO _ _ => PPOTrainer_policy_inputs trajectory values
  end.

(** *** [policy_batches_stream] *)

(** [self._max_slice_length + 1]; adding to [None] is a TypeError. *)
Definition policy_slice_length (self : ActorCriticTrainer) : result nat :=
  match max_slice_length self with
  | Some L => Ok (L + 1)
  | None => Raise TypeError
  end.

Definition policy_stream_call (self : ActorCriticTrainer) (len : nat)
  : stream_call :=
  let epochs := if on_policy self then Some [(-1)%Z] else None in
  {| arg_batch_size := policy_batch_size self;
     kw_epochs := Passed epochs;
     kw_max_slice_length := Passed (Some len);
     kw_include_final_state := Passed true;
     kw_sample_trajectories_uniformly := Passed true |}.

(** The body of the [for] loop, run on one batch of the task's stream. *)
Definition policy_batch (self : ActorCriticTrainer) (len : nat)
    (np_trajectory : Trajectory) : result Batch :=
  let weights := model_weights (value_trainer self) in
  let values :=
    value_eval_model self weights (observations np_trajectory) in
  _ <- assert_shape_equals values (policy_batch_size self, len, 1) ;;
  values <- Np.squeeze 0%R values ;;
  policy_inputs self np_trajectory values.

Definition policy_batches_stream (self : ActorCriticTrainer) (n : nat)
  : result Batch :=
  len <- policy_slice_length self ;;
  policy_batch self len
    (trajectory_batch_stream (task self) (policy_stream_call self len) n).

(** *** [train_epoch] *)

(** [dst[:k] = src[:k]] on Python lists, returning the updated [dst]. *)
Definition copy_shared (k : Z) (src dst : list Block) : list Block :=
  firstn (Z.to_nat k) src ++ skipn (Z.to_nat k) dst.

Definition copy_value_to_policy (self : ActorCriticTrainer)
  : ActorCriticTrainer :=
  let value_weights := model_weights (value_trainer self) in
  let policy_weights := model_weights (policy_trainer self) in
  let policy_weights :=
    copy_shared (n_shared_layers self) value_weights policy_weights in
  with_policy_trainer self
    (set_model_weights policy_weights (policy_trainer self)).

Definition copy_policy_to_value (self : ActorCriticTrainer)
  : ActorCriticTrainer :=
  let value_weights := model_weights (value_trainer self) in
  let policy_weights := model_weights (policy_trainer self) in
  let value_weights :=
    copy_shared (n_shared_layers self) policy_weights value_weights in
  with_value_trainer self
    (set_model_weights value_weights (value_trainer self)).

Definition value_epoch (self : ActorCriticTrainer)
  : result ActorCriticTrainer :=
  vt <- trainer_train_epoch (value_train_steps_per_epoch self) 1
          (value_batches_stream self) (value_trainer self) ;;
  Ok (with_value_trainer self vt).

Definition policy_epoch (self : ActorCriticTrainer)
  : result ActorCriticTrainer :=
  pt <- trainer_train_epoch (policy_train_steps_per_epoch self) 1
          (policy_batches_stream self) (policy_trainer self) ;;
  Ok (with_policy_trainer self pt).

Definition train_epoch (self : ActorCriticTrainer)
  : result ActorCriticTrainer :=
  self <- value_epoch self ;;
  let self :=
    if (0 <? n_shared_layers self)%Z then copy_value_to_policy self
    else self in
  self <- policy_epoch self ;;
  let self :=
    if (0 <? n_shared_layers self)%Z then copy_policy_to_value self
    else self in
  Ok self.

(** *** [PPOTrainer.ppo_loss] *)

(** [self.old_log_probs]: AttributeError when the attribute is not set. *)
Definition getattr_old_log_probs (attr : option (Np.array2 R))
  : result (Np.array2 R) :=
  match attr with
  | Some a => Ok a
  | None => Raise AttributeError
  end.

Definition ppo_loss (ppo_eps : R) (self_old_log_probs : option (Np.array2 R))
    (new_log_probs advantages old_log_probs : Np.array2 R) : result R :=
  self_old <- getattr_old_log_probs self_old_log_probs ;;
  probs_ratio <- Np.div (Np.exp new_log_probs) (Np.exp self_old) ;;
  unclipped_objective <- Np.mul probs_ratio advantages ;;
  clipped_objective <-
    Np.mul (Np.clamp (1 - ppo_eps) probs_ratio (1 + ppo_eps)) advantages ;;
  stacked_objectives <- Np.stack2 unclipped_objective clipped_objective ;;
  ppo_objective <- Np.min_axis0 stacked_objectives ;;
  Ok (- Np.mean ppo_objective)%R.

(** [self.ppo_loss(...)]: the method exists on [PPOTrainer] instances only;
    on an instance of another class the lookup of [ppo_loss] itself is an
    AttributeError. *)
Definition call_ppo_loss (self : ActorCriticTrainer)
    (new_log_probs advantages old_log_probs : Np.array2 R) : result R :=
  match class_of self with
  | PPO ppo_eps attr =>
      ppo_loss ppo_eps attr new_log_probs advantages old_log_probs
  | _ => Raise AttributeError
  end.

End ActorCritic.

Arguments ActorCriticTrainer : clear implicits.

(** ** Construction *)

(** What [PolicyTrainer.__init__] leaves on the instance. *)
Record policy_trainer_state (Obs Act T : Type) : Type := {
  pts_task : RLTask Obs Act;
  pts_max_slice_length : option nat;
  pts_policy_trainer : T;
  pts_policy_batch_size : nat;
  pts_policy_train_steps_per_epoch : nat
}.
Arguments pts_task {Obs Act T} p.
Arguments pts_max_slice_length {Obs Act T} p.
Arguments pts_policy_trainer {Obs Act T} p.
Arguments pts_policy_batch_size {Obs Act T} p.
Arguments pts_policy_train_steps_per_epoch {Obs Act T} p.

(** The constructors the module calls (external): [supervised.Trainer] with
    the model, optimizer, learning-rate schedule and output directory it is
    given, the value model factory called with [mode='eval'], and
    [PolicyTrainer.__init__] with the task and the remaining keywords. *)
Class Constructors (Obs Act Block T : Type) : Type := {
  supervised_Trainer : value -> value -> value -> option string -> T;
  eval_model : value -> list Block -> Np.array2 Obs -> Np.array3 R;
  PolicyTrainer_init :
    RLTask Obs Act -> gmap string value ->
    result (policy_trainer_state Obs Act T)
}.

Section Construction.

Context {Obs Act Block T : Type}.
Context {trainer : SupervisedTrainer Block (batch Obs Act) T}.
Context {ctors : Constructors Obs Act Block T}.

(** The named parameters of [ActorCriticTrainer.__init__]; every other
    keyword lands in its [**kwargs]. *)
Definition named_parameters : list string :=
  ["value_model"; "value_optimizer"; "value_lr_schedule";
   "value_batch_size"; "value_train_steps_per_epoch";
   "n_shared_layers"; "on_policy"]%string.

(** Keyword arguments are taken to have the documented types: an integer
    parameter is read from an [int] or from a [bool] (in Python [True] is
    the integer 1 and [False] the integer 0); a value of another type is
    outside the model and reads as the default. *)
Definition kw_nat (key : string) (dflt : nat) (kw : gmap string value) : nat :=
  match kw !! key with
  | Some (PyInt z) => Z.to_nat z
  | Some (PyBool b) => Z.to_nat (Z.b2z b)
  | _ => dflt
  end.

Definition kw_int (key : string) (dflt : Z) (kw : gmap string value) : Z :=
  match kw !! key with
  | Some (PyInt z) => z
  | Some (PyBool b) => Z.b2z b
  | _ => dflt
  end.

Definition kw_bool (key : string) (dflt : bool) (kw : gmap string value)
  : bool :=
  match kw !! key with
  | Some v => truthy v
  | None => dflt
  end.

(** Lines 57-59: the output directory handed to the value trainer. *)
Definition value_output_dir (kwargs : gmap string value)
  : result (option string) :=
  match kwargs !! "output_dir"%string with
  | None | Some PyNone => Ok None
  | Some (PyStr d) => Ok (Some (PosixPath.join d ["/value"%string]))
  | Some _ => Raise TypeError
  end.

(** [ActorCriticTrainer.__init__(self, task, **kw)] on an instance of class
    [cls].  Building the first value batch and initialising the evaluation
    model with it touches only that model's internals and is left out. *)
Definition ActorCriticTrainer_init (cls : subclass) (task0 : RLTask Obs Act)
    (kw : gmap string value) : result (ActorCriticTrainer Obs Act Block T) :=
  let value_model := default PyNone (kw !! "value_model"%string) in
  let value_optimizer := default PyNone (kw !! "value_optimizer"%string) in
  let value_lr_schedule :=
    default (PyObj 0) (kw !! "value_lr_schedule"%string) in
  let kwargs := foldr delete kw named_parameters in
  out_dir <- value_output_dir kwargs ;;
  let vt :=
    supervised_Trainer value_model value_optimizer value_lr_schedule out_dir in
  ev <- match value_model with
        | PyNone => Raise TypeError
        | m => Ok (eval_model m)
        end ;;
  p <- PolicyTrainer_init task0 kwargs ;;
  Ok {| class_of := cls;
        on_policy := kw_bool "on_policy" true kw;
        n_shared_layers := kw_int "n_shared_layers" 0 kw;
        value_batch_size := kw_nat "value_batch_size" 64 kw;
        value_train_steps_per_epoch :=
          kw_nat "value_train_steps_per_epoch" 500 kw;
        task := pts_task p;
        max_slice_length := pts_max_slice_length p;
        value_trainer := vt;
        value_eval_model := ev;
        policy_trainer := pts_policy_trainer p;
        policy_batch_size := pts_policy_batch_size p;
        policy_train_steps_per_epoch :=
          pts_policy_train_steps_per_epoch p |}.

(** [f(key=v, **kwargs)]: a key given twice is a TypeError. *)
Definition call_with_keyword (key : string) (v : value)
    (kwargs : gmap string value) : result (gmap string value) :=
  match kwargs !! key with
  | Some _ => Raise TypeError
  | None => Ok (<[key := v]> kwargs)
  end.

Definition AWRTrainer_init (task0 : RLTask Obs Act) (beta w_max : R)
    (kwargs : gmap string value) : result (ActorCriticTrainer Obs Act Block T) :=
  kw <- call_with_keyword "on_policy" (PyBool false) kwargs ;;
  ActorCriticTrainer_init (AWR beta w_max) task0 kw.

Definition AdvantageActorCriticTrainer_init (task0 : RLTask Obs Act)
    (kwargs : gmap string value) : result (ActorCriticTrainer Obs Act Block T) :=
  ActorCriticTrainer_init A2C task0 kwargs.

Definition PPOTrainer_init (task0 : RLTask Obs Act) (ppo_eps : R)
    (kwargs : gmap string value) : result (ActorCriticTrainer Obs Act Block T) :=
  ActorCriticTrainer_init (PPO ppo_eps None) task0 kwargs.

End Construction.

(** ** The PPO loss as the specification words it

    [ratio = exp(new - old)], [unclipped = ratio * advantage],
    [clipped = clip(ratio, 1 - eps, 1 + eps) * advantage], the objective is
    their minimum per time step, the loss minus its mean; [old] is the
    argument of the call. *)
Definition ppo_loss_spec (ppo_eps : R)
    (new_log_probs advantages old_log_probs : Np.array2 R) : result R :=
  diff <- Np.sub new_log_probs old_log_probs ;;
  let ratio := Np.exp diff in
  unclipped <- Np.mul ratio advantages ;;
  clipped <- Np.mul (Np.clamp (1 - ppo_eps) ratio (1 + ppo_eps)) advantages ;;
  objective <- Np.binop Rmin unclipped clipped ;;
  Ok (- Np.mean objective)%R.

(** ** Fixed-point lower bounds for the exponential

    [fx_pow2 n a] squares [a] [n] times in fixed point with [fx_scale]
    units per 1, rounding down at every step. *)
Module ExpBound.





End ExpBound.

(** ** Concrete collaborators used to run the model on examples *)

Module Fixture.

(** A trainer whose state is its list of weights; an epoch pulls the first
    batch and adds the number of steps to every weight. *)
Definition toy_trainer : SupervisedTrainer nat (batch nat nat) (list nat) :=
  {| model_weights := fun t => t;
     set_model_weights := fun w _ => w;
     trainer_train_epoch := fun n _ stream t =>
       match stream 0 with
       | Ok _ => Ok (map (Nat.add n) t)
       | Raise e => Raise e
       end |}.

Definition slice_length (call : stream_call) : nat :=
  match kw_max_slice_length call with
  | Passed (Some len) => len
  | _ => 1
  end.

Definition filled {A} (call : stream_call) (x : A) : Np.array2 A :=
  repeat (repeat x (slice_length call)) (arg_batch_size call).

Definition trajectory (call : stream_call) : TrajectoryNp nat nat :=
  {| observations := filled call 0;
     actions := filled call 0;
     log_probs := filled call 0%R;
     rewards := filled call 1%R;
     returns := filled call 1%R;
     mask := filled call 1%R |}.

Definition toy_task : RLTask nat nat :=
  {| gamma := 0.99%R;
     n_epochs := 3;
     trajectory_batch_stream := fun call _ => trajectory call |}.

(** A value model with one output per time step, and one with two. *)
Definition toy_value_model (w : list nat) (obs : Np.array2 nat) : Np.array3 R :=
  map (map (fun _ => [0%R])) obs.

Definition toy_wide_value_model (w : list nat) (obs : Np.array2 nat)
  : Np.array3 R :=
  map (map (fun _ => [0%R; 0%R])) obs.

Definition toy_coordinator (cls : subclass)
    (model : list nat -> Np.array2 nat -> Np.array3 R)
  : ActorCriticTrainer nat nat nat (list nat) :=
  {| class_of := cls;
     on_policy := true;
     n_shared_layers := 2;
     value_batch_size := 2;
     value_train_steps_per_epoch := 5;
     task := toy_task;
     max_slice_length := Some 3;
     value_trainer := [1; 2; 3];
     value_eval_model := model;
     policy_trainer := [4; 5; 6; 7];
     policy_batch_size := 2;
     policy_train_steps_per_epoch := 7 |}.

(** The same coordinator with another number of shared layers and another
    slice length. *)
Definition toy_coordinator_with (k : Z) (len : option nat)
  : ActorCriticTrainer nat nat nat (list nat) :=
  {| class_of := A2C;
     on_policy := true;
     n_shared_layers := k;
     value_batch_size := 2;
     value_train_steps_per_epoch := 5;
     task := toy_task;
     max_slice_length := len;
     value_trainer := [1; 2; 3];
     value_eval_model := toy_value_model;
     policy_trainer := [4; 5; 6; 7];
     policy_batch_size := 2;
     policy_train_steps_per_epoch := 7 |}.

Definition toy_ctors : Constructors nat nat nat (list nat) :=
  {| supervised_Trainer := fun _ _ _ _ => [1; 2; 3];
     eval_model := fun _ => toy_value_model;
     PolicyTrainer_init := fun task0 kwargs =>
       Ok {| pts_task := task0;
             pts_max_slice_length := Some (kw_nat "max_slice_length" 1 kwargs);
             pts_policy_trainer := [4; 5; 6; 7];
             pts_policy_batch_size := kw_nat "policy_batch_size" 64 kwargs;
             pts_policy_train_steps_per_epoch :=
               kw_nat "policy_train_steps_per_epoch" 500 kwargs |} |}.

(** The end-to-end scenario: two rows, four time steps. *)
Definition scenario : TrajectoryNp nat nat :=
  {| observations := [[10; 11; 12; 13]; [20; 21; 22; 23]];
     actions := [[0; 1; 0; 1]; [1; 0; 1; 0]];
     log_probs := [[0; 0; 0; 0]; [0; 0; 0; 0]]%R;
     rewards := [[1; 1; 1; 0]; [0; 0; 0; 0]]%R;
     returns := [[3; 2; 1; 0]; [0; 0; 0; 0]]%R;
     mask := [[1; 1; 1; 1]; [1; 1; 1; 1]]%R |}.

Definition scenario_values : Np.array2 R := [[0; 1; 2; 3]; [5; 4; 3; 2]]%R.

End Fixture.

(** * Properties *)

(** ** Arrays *)

Section ArrayFacts.

Import Np.

Lemma sequence_map_Ok {A} (l : list A) : Py.sequence (map Ok l) = Ok l.
Proof. induction l as [|x l IH]; simpl; [reflexivity | now rewrite IH]. Qed.

Lemma has_shape2_spec {A} (a : array2 A) (B T : nat) :
  has_shape2 a B T = true <-> length a = B /\ Forall (fun r => length r = T) a.
Proof.
  unfold has_shape2. rewrite andb_true_iff, Nat.eqb_eq, forallb_forall.
  rewrite List.Forall_forall. split; intros [H1 H2]; split; auto; intros r Hr.
  - apply Nat.eqb_eq; auto.
  - apply Nat.eqb_eq; auto.
Qed.

Lemma has_shape2_cons {A} (r : list A) (a : array2 A) (B T : nat) :
  has_shape2 (r :: a) (S B) T = true <->
  length r = T /\ has_shape2 a B T = true.
Proof.
  unfold has_shape2; simpl.
  rewrite !andb_true_iff, !Nat.eqb_eq. tauto.
Qed.

Lemma has_shape2_nil_inv {A} (a : array2 A) (T : nat) :
  has_shape2 a 0 T = true -> a = [].
Proof.
  intros H. apply has_shape2_spec in H as [H _]. now destruct a.
Qed.

Lemma has_shape2_cons_inv {A} (a : array2 A) (B T : nat) :
  has_shape2 a (S B) T = true ->
  exists r a', a = r :: a' /\ length r = T /\ has_shape2 a' B T = true.
Proof.
  destruct a as [|r a']; intros H.
  - unfold has_shape2 in H; simpl in H. discriminate.
  - exists r, a'. split; [reflexivity|]. now apply has_shape2_cons.
Qed.

Lemma has_shape2_row {A} (a : array2 A) (B T b : nat) :
  has_shape2 a B T = true -> b < B -> length (nth b a []) = T.
Proof.
  intros H Hb. apply has_shape2_spec in H as [HB HT].
  rewrite List.Forall_forall in HT. apply HT, nth_In. lia.
Qed.

Lemma length_removelast' {A} (l : list A) :
  length (removelast l) = pred (length l).
Proof.
  induction l as [|x [|y l] IH]; simpl in *; auto.
Qed.

Lemma nth_removelast {A} (l : list A) (d : A) (j : nat) :
  S j < length l -> nth j (removelast l) d = nth j l d.
Proof.
  revert j; induction l as [|x [|y l] IH]; intros j Hj; simpl in *; try lia.
  destruct j as [|j]; [reflexivity|]. apply IH. lia.
Qed.

Lemma nth_tl {A} (l : list A) (d : A) (j : nat) :
  nth j (tl l) d = nth (S j) l d.
Proof. destruct l; simpl; [now destruct j | reflexivity]. Qed.

Lemma has_shape2_drop_last {A} (a : array2 A) (B T : nat) :
  has_shape2 a B T = true -> has_shape2 (drop_last a) B (pred T) = true.
Proof.
  rewrite !has_shape2_spec. unfold drop_last. intros [HB HT].
  rewrite length_map. split; [assumption|].
  apply List.Forall_map. eapply List.Forall_impl; [|exact HT].
  intros r Hr; simpl. now rewrite length_removelast', Hr.
Qed.

Lemma has_shape2_drop_first {A} (a : array2 A) (B T : nat) :
  has_shape2 a B T = true -> has_shape2 (drop_first a) B (pred T) = true.
Proof.
  rewrite !has_shape2_spec. unfold drop_first. intros [HB HT].
  rewrite length_map. split; [assumption|].
  apply List.Forall_map. eapply List.Forall_impl; [|exact HT].
  intros r Hr; simpl. destruct r; simpl in *; subst; reflexivity.
Qed.

Lemma has_shape2_pointwise (f : R -> R) (a : array2 R) (B T : nat) :
  has_shape2 (pointwise f a) B T = has_shape2 a B T.
Proof.
  unfold has_shape2, pointwise. rewrite length_map. f_equal.
  induction a as [|r a IH]; simpl; [reflexivity|].
  now rewrite length_map, IH.
Qed.

Lemma at2_drop_first (a : array2 R) (b t : nat) :
  at2 (drop_first a) b t = at2 a b (S t).
Proof.
  unfold at2, drop_first.
  change (@nil R) with (tl (@nil R)) at 1.
  now rewrite map_nth, nth_tl.
Qed.

Lemma at2_drop_last (a : array2 R) (B T b t : nat) :
  has_shape2 a B T = true -> b < B -> S t < T ->
  at2 (drop_last a) b t = at2 a b t.
Proof.
  intros H Hb Ht. unfold at2, drop_last.
  change (@nil R) with (removelast (@nil R)) at 1.
  rewrite map_nth. apply nth_removelast.
  now rewrite (has_shape2_row a B T b H Hb).
Qed.

Lemma at2_pointwise (f : R -> R) (a : array2 R) (B T b t : nat) :
  has_shape2 a B T = true -> b < B -> t < T ->
  at2 (pointwise f a) b t = f (at2 a b t).
Proof.
  intros H Hb Ht. unfold at2, pointwise.
  change (@nil R) with (map f (@nil R)) at 1. rewrite map_nth.
  pose proof (has_shape2_row a B T b H Hb) as Hr.
  rewrite (nth_indep _ 0%R (f 0%R)) by (rewrite length_map; lia).
  apply map_nth.
Qed.

End ArrayFacts.

Section Broadcasting.

Import Np.

Lemma sequence_zip_with_Ok {A B C} (f : A -> B -> C) (l : list A) (k : list B) :
  Py.sequence (zip_with (fun x y => Ok (f x y)) l k) = Ok (zip_with f l k).
Proof.
  revert k; induction l as [|x l IH]; intros [|y k]; simpl; try reflexivity.
  now rewrite IH.
Qed.

Lemma broadcast_axis_row (f : R -> R -> R) (r1 r2 : list R) :
  length r1 = length r2 ->
  broadcast_axis (fun x y => Ok (f x y)) r1 r2 = Ok (zip_with f r1 r2).
Proof.
  intros H. unfold broadcast_axis.
  rewrite (proj2 (Nat.eqb_eq _ _) H). apply sequence_zip_with_Ok.
Qed.

Lemma sequence_zip_with_rows (f : R -> R -> R) (a b : array2 R) (B T : nat) :
  has_shape2 a B T = true -> has_shape2 b B T = true ->
  Py.sequence (zip_with (broadcast_axis (fun x y => Ok (f x y))) a b)
  = Ok (zip_with (zip_with f) a b).
Proof.
  revert a b; induction B as [|B IH]; intros a b Ha Hb.
  - apply has_shape2_nil_inv in Ha, Hb. now subst.
  - apply has_shape2_cons_inv in Ha as (r1 & a' & -> & Hr1 & Ha).
    apply has_shape2_cons_inv in Hb as (r2 & b' & -> & Hr2 & Hb).
    simpl. rewrite broadcast_axis_row by congruence. simpl.
    now rewrite (IH a' b' Ha Hb).
Qed.

(** On operands of one shape nothing is broadcast: the operation is applied
    position by position. *)
Lemma binop_same_shape (f : R -> R -> R) (a b : array2 R) (B T : nat) :
  has_shape2 a B T = true -> has_shape2 b B T = true ->
  binop f a b = Ok (zip_with (zip_with f) a b).
Proof.
  intros Ha Hb. unfold binop, broadcast_axis.
  pose proof (proj1 (has_shape2_spec a B T) Ha) as [La _].
  pose proof (proj1 (has_shape2_spec b B T) Hb) as [Lb _].
  rewrite (proj2 (Nat.eqb_eq (length a) (length b))) by congruence.
  exact (sequence_zip_with_rows f a b B T Ha Hb).
Qed.

Lemma has_shape2_zip_with (f : R -> R -> R) (a b : array2 R) (B T : nat) :
  has_shape2 a B T = true -> has_shape2 b B T = true ->
  has_shape2 (zip_with (zip_with f) a b) B T = true.
Proof.
  revert a b; induction B as [|B IH]; intros a b Ha Hb.
  - apply has_shape2_nil_inv in Ha, Hb. now subst.
  - apply has_shape2_cons_inv in Ha as (r1 & a' & -> & Hr1 & Ha).
    apply has_shape2_cons_inv in Hb as (r2 & b' & -> & Hr2 & Hb).
    simpl. apply has_shape2_cons. split; [|now apply IH].
    rewrite length_zip_with. lia.
Qed.

Lemma nth_zip_with (f : R -> R -> R) (r1 r2 : list R) (t : nat) :
  t < length r1 -> t < length r2 ->
  nth t (zip_with f r1 r2) 0%R = f (nth t r1 0%R) (nth t r2 0%R).
Proof.
  revert r2 t; induction r1 as [|x r1 IH]; intros [|y r2] [|t] H1 H2;
    simpl in *; try lia; try reflexivity.
  apply IH; lia.
Qed.

Lemma at2_zip_with (f : R -> R -> R) (a b : array2 R) (B T i j : nat) :
  has_shape2 a B T = true -> has_shape2 b B T = true -> i < B -> j < T ->
  at2 (zip_with (zip_with f) a b) i j = f (at2 a i j) (at2 b i j).
Proof.
  unfold at2. revert a b i; induction B as [|B IH]; intros a b i Ha Hb Hi Hj.
  - lia.
  - apply has_shape2_cons_inv in Ha as (r1 & a' & -> & Hr1 & Ha).
    apply has_shape2_cons_inv in Hb as (r2 & b' & -> & Hr2 & Hb).
    destruct i as [|i]; simpl.
    + apply nth_zip_with; lia.
    + apply IH; auto; lia.
Qed.

End Broadcasting.

(** ** Bounds on the exponential *)

Section ExpBounds.

Import ExpBound.
Local Open Scope R_scope.









End ExpBounds.

(** ** The batch streams and the policy-input derivers *)

Section Derivers.

Context {Obs Act Block T : Type}.
Context {trainer : SupervisedTrainer Block (batch Obs Act) T}.

Import Np.

Lemma has_shape3_new_axis {A} (a : array2 A) (B T' : nat) :
  has_shape3 (new_axis a) B T' 1 = has_shape2 a B T'.
Proof.
  unfold has_shape3, has_shape2, new_axis. rewrite length_map. f_equal.
  induction a as [|r a IH]; simpl; [reflexivity|].
  rewrite IH, length_map. f_equal.
  assert (H : forallb (fun row : list A => length row =? 1)
                (map (fun x : A => [x]) r) = true).
  { clear. induction r; simpl; auto. }
  rewrite H. apply andb_true_r.
Qed.

(** C7. Every element of the value batch stream is the triple
    (observations, returns[:, :, None], mask[:, :, None]); for a trajectory
    batch whose fields have batch size [B] and time length [T'], returns
    and mask leave with shape [B, T', 1], that is
    [observations.shape[:2] + (1,)]. *)
Theorem value_batches_stream_shapes
    (self : ActorCriticTrainer Obs Act Block T) (n B T' : nat) :
  has_shape2 (observations (trajectory_batch_stream (task self)
                              (value_stream_call self) n)) B T' = true ->
  has_shape2 (returns (trajectory_batch_stream (task self)
                         (value_stream_call self) n)) B T' = true ->
  has_shape2 (mask (trajectory_batch_stream (task self)
                      (value_stream_call self) n)) B T' = true ->
  exists obs ret msk,
    value_batches_stream self n = Ok (ValueBatch obs ret msk)
    /\ obs = observations (trajectory_batch_stream (task self)
                             (value_stream_call self) n)
    /\ ret = new_axis (returns (trajectory_batch_stream (task self)
                                  (value_stream_call self) n))
    /\ msk = new_axis (mask (trajectory_batch_stream (task self)
                               (value_stream_call self) n))
    /\ has_shape2 obs B T' = true
    /\ has_shape3 ret B T' 1 = true
    /\ has_shape3 msk B T' 1 = true.
Proof.
  intros Hobs Hret Hmask. unfold value_batches_stream.
  eexists _, _, _. split; [reflexivity|].
  repeat split; try assumption; now rewrite has_shape3_new_axis.
Qed.

Lemma sub_drop_last (x v : array2 R) (B L : nat) :
  has_shape2 x B (L + 1) = true -> has_shape2 v B (L + 1) = true ->
  exists d,
    sub (drop_last x) (drop_last v) = Ok d
    /\ has_shape2 d B L = true
    /\ forall b t, b < B -> t < L -> at2 d b t = (at2 x b t - at2 v b t)%R.
Proof.
  intros Hx Hv.
  pose proof (has_shape2_drop_last x B (L + 1) Hx) as Hx'.
  pose proof (has_shape2_drop_last v B (L + 1) Hv) as Hv'.
  replace (pred (L + 1)) with L in * by lia.
  eexists. split; [exact (binop_same_shape Rminus _ _ B L Hx' Hv')|].
  split; [now apply has_shape2_zip_with|].
  intros b t Hb Ht.
  rewrite (at2_zip_with Rminus _ _ B L) by assumption.
  rewrite (at2_drop_last x B (L + 1)), (at2_drop_last v B (L + 1))
    by (assumption || lia).
  reflexivity.
Qed.

(** C6. On a slice of [L + 1] time steps the A2C deriver returns
    (observations, actions, advantages): observations and actions are the
    trajectory's own, still [L + 1] long, and the advantages
    [returns[:, :-1] - values[:, :-1]] are [L] long. *)
Theorem a2c_policy_inputs_lengths
    (self : ActorCriticTrainer Obs Act Block T)
    (trajectory : TrajectoryNp Obs Act) (values : array2 R) (B L : nat) :
  class_of self = A2C ->
  has_shape2 (observations trajectory) B (L + 1) = true ->
  has_shape2 (actions trajectory) B (L + 1) = true ->
  has_shape2 (returns trajectory) B (L + 1) = true ->
  has_shape2 values B (L + 1) = true ->
  exists obs act advantages,
    policy_inputs self trajectory values = Ok (Inputs3 obs act advantages)
    /\ obs = observations trajectory
    /\ act = actions trajectory
    /\ has_shape2 obs B (L + 1) = true
    /\ has_shape2 act B (L + 1) = true
    /\ has_shape2 advantages B L = true
    /\ forall b t, b < B -> t < L ->
         at2 advantages b t
         = (at2 (returns trajectory) b t - at2 values b t)%R.
Proof.
  intros Hcls Hobs Hact Hret Hval.
  destruct (sub_drop_last (returns trajectory) values B L Hret Hval)
    as (adv & Hsub & Hshape & Hat).
  exists (observations trajectory), (actions trajectory), adv.
  unfold policy_inputs. rewrite Hcls.
  unfold AdvantageActorCriticTrainer_policy_inputs. rewrite Hsub. simpl.
  repeat split; assumption.
Qed.

End Derivers.

Section WeightedRegression.

Context {Obs Act Block T : Type}.
Context {trainer : SupervisedTrainer Block (batch Obs Act) T}.

Import Np.
Local Open Scope R_scope.

Lemma AWR_td_advantage_spec (g : R) (trajectory : TrajectoryNp Obs Act)
    (values : array2 R) (B L : nat) :
  has_shape2 (rewards trajectory) B (L + 1) = true ->
  has_shape2 values B (L + 1) = true ->
  exists td,
    AWR_td_advantage g trajectory values = Ok td
    /\ has_shape2 td B L = true
    /\ forall b t, (b < B)%nat -> (t < L)%nat ->
         at2 td b t
         = at2 (rewards trajectory) b t + g * at2 values b (t + 1)
           - at2 values b t.
Proof.
  intros Hrew Hval.
  pose proof (has_shape2_drop_last _ B (L + 1) Hrew) as Hrew'.
  pose proof (has_shape2_drop_last _ B (L + 1) Hval) as Hlast.
  pose proof (has_shape2_drop_first _ B (L + 1) Hval) as Hfirst.
  replace (pred (L + 1)) with L in * by lia.
  assert (Hsc : has_shape2 (scale g (drop_first values)) B L = true)
    by (unfold scale; now rewrite has_shape2_pointwise).
  pose proof (has_shape2_zip_with Rplus _ _ B L Hrew' Hsc) as Hsum.
  eexists. unfold AWR_td_advantage, add, sub.
  rewrite (binop_same_shape Rplus _ _ B L Hrew' Hsc). simpl.
  split; [exact (binop_same_shape Rminus _ _ B L Hsum Hlast)|].
  split; [now apply has_shape2_zip_with|].
  intros b t Hb Ht.
  rewrite (at2_zip_with Rminus _ _ B L) by assumption.
  rewrite (at2_zip_with Rplus _ _ B L) by assumption.
  unfold scale. rewrite (at2_pointwise _ _ B L) by assumption.
  rewrite at2_drop_first.
  rewrite (at2_drop_last (rewards trajectory) B (L + 1)),
          (at2_drop_last values B (L + 1)) by (assumption || lia).
  now replace (t + 1)%nat with (S t) by lia.
Qed.


End WeightedRegression.

Section WeightedRegressionExamples.

Import Np.
Local Open Scope R_scope.



End WeightedRegressionExamples.

(** ** The policy batch stream *)

Section PolicyStream.

Context {Obs Act Block T : Type}.
Context {trainer : SupervisedTrainer Block (batch Obs Act) T}.

Import Np.

Lemma squeeze_has_shape (out : array3 R) (B T' : nat) :
  has_shape3 out B T' 1 = true ->
  exists values,
    squeeze 0%R out = Ok values /\ has_shape2 values B T' = true.
Proof.
  intros H. unfold has_shape3 in H. apply andb_true_iff in H as [HB Hrows].
  assert (Hcells : forallb (forallb (fun cell : list R => length cell =? 1)) out
                   = true).
  { apply forallb_forall. intros row Hrow.
    rewrite forallb_forall in Hrows. specialize (Hrows row Hrow).
    unfold has_shape2 in Hrows. now apply andb_true_iff in Hrows as [_ Hc]. }
  unfold squeeze. rewrite Hcells. eexists. split; [reflexivity|].
  unfold has_shape2. rewrite length_map, HB. simpl.
  apply forallb_forall. intros r Hr. apply in_map_iff in Hr as (row & <- & Hrow).
  rewrite forallb_forall in Hrows. specialize (Hrows row Hrow).
  unfold has_shape2 in Hrows. apply andb_true_iff in Hrows as [Hlen _].
  now rewrite length_map.
Qed.

Lemma has_shape3_depth_two (out : array3 R) (B T' : nat) :
  0 < B -> 0 < T' ->
  has_shape3 out B T' 2 = true -> has_shape3 out B T' 1 = false.
Proof.
  intros HB HT H. unfold has_shape3 in *.
  apply andb_true_iff in H as [Hlen Hrows]. rewrite Hlen. simpl.
  destruct out as [|row out]; [apply Nat.eqb_eq in Hlen; simpl in Hlen; lia|].
  simpl in *. apply andb_true_iff in Hrows as [Hrow _].
  unfold has_shape2 in *. apply andb_true_iff in Hrow as [Hl Hcells].
  rewrite Hl. simpl.
  destruct row as [|cell row]; [apply Nat.eqb_eq in Hl; simpl in Hl; lia|].
  simpl in *. apply andb_true_iff in Hcells as [Hc _].
  apply Nat.eqb_eq in Hc. rewrite Hc. reflexivity.
Qed.

Lemma policy_batches_stream_unfold
    (self : ActorCriticTrainer Obs Act Block T) (L n : nat) :
  max_slice_length self = Some L ->
  policy_batches_stream self n
  = policy_batch self (L + 1)
      (trajectory_batch_stream (task self)
         (policy_stream_call self (L + 1)) n).
Proof.
  intros HL. unfold policy_batches_stream, policy_slice_length.
  now rewrite HL.
Qed.

Lemma policy_batch_accepts
    (self : ActorCriticTrainer Obs Act Block T) (len : nat)
    (np_trajectory : TrajectoryNp Obs Act) :
  has_shape3
    (value_eval_model self (model_weights (value_trainer self))
       (observations np_trajectory))
    (policy_batch_size self) len 1 = true ->
  exists values,
    squeeze 0%R
      (value_eval_model self (model_weights (value_trainer self))
         (observations np_trajectory)) = Ok values
    /\ has_shape2 values (policy_batch_size self) len = true
    /\ policy_batch self len np_trajectory
       = policy_inputs self np_trajectory values.
Proof.
  intros H. destruct (squeeze_has_shape _ _ _ H) as (values & Hsq & Hshape).
  exists values. split; [exact Hsq|]. split; [exact Hshape|].
  unfold policy_batch, assert_shape_equals. rewrite H. simpl.
  now rewrite Hsq.
Qed.

Lemma policy_batch_rejects
    (self : ActorCriticTrainer Obs Act Block T) (len : nat)
    (np_trajectory : TrajectoryNp Obs Act) :
  has_shape3
    (value_eval_model self (model_weights (value_trainer self))
       (observations np_trajectory))
    (policy_batch_size self) len 1 = false ->
  policy_batch self len np_trajectory = Raise AssertionError.
Proof.
  intros H. unfold policy_batch, assert_shape_equals. now rewrite H.
Qed.

(** C3. For every batch of the policy batch stream the value model's output
    on the [batch, L + 1] observations must have shape exactly
    [policy_batch_size, L + 1, 1]: then the trailing axis is squeezed, the
    value estimates have shape [batch, L + 1] and go to the deriver; any
    other shape, [batch, L + 1, 2] for one, raises the assertion, no batch
    is produced and the stream is finished. *)
Theorem policy_stream_asserts_value_shape
    (self : ActorCriticTrainer Obs Act Block T) (L n : nat) :
  max_slice_length self = Some L ->
  (has_shape3
     (value_eval_model self (model_weights (value_trainer self))
        (observations (trajectory_batch_stream (task self)
                         (policy_stream_call self (L + 1)) n)))
     (policy_batch_size self) (L + 1) 1 = true ->
   exists values,
     squeeze 0%R
       (value_eval_model self (model_weights (value_trainer self))
          (observations (trajectory_batch_stream (task self)
                           (policy_stream_call self (L + 1)) n)))
     = Ok values
     /\ has_shape2 values (policy_batch_size self) (L + 1) = true
     /\ policy_batches_stream self n
        = policy_inputs self
            (trajectory_batch_stream (task self)
               (policy_stream_call self (L + 1)) n) values)
  /\ (has_shape3
        (value_eval_model self (model_weights (value_trainer self))
           (observations (trajectory_batch_stream (task self)
                            (policy_stream_call self (L + 1)) n)))
        (policy_batch_size self) (L + 1) 1 = false ->
      policy_batches_stream self n = Raise AssertionError
      /\ Py.next (policy_batches_stream self) (Generator n false)
         = (Raise AssertionError, Generator n true))
  /\ (0 < policy_batch_size self ->
      has_shape3
        (value_eval_model self (model_weights (value_trainer self))
           (observations (trajectory_batch_stream (task self)
                            (policy_stream_call self (L + 1)) n)))
        (policy_batch_size self) (L + 1) 2 = true ->
      policy_batches_stream self n = Raise AssertionError).
Proof.
  intros HL. rewrite (policy_batches_stream_unfold self L n HL).
  split; [|split].
  - apply policy_batch_accepts.
  - intros H. split; [now apply policy_batch_rejects|].
    unfold Py.next. simpl.
    rewrite (policy_batches_stream_unfold self L n HL).
    now rewrite (policy_batch_rejects _ _ _ H).
  - intros HB H. apply policy_batch_rejects.
    apply has_shape3_depth_two; [assumption|lia|exact H].
Qed.

(** C5, what the code does: on an instance of the base class, whenever the
    value model's output passes the shape assertion the stream yields the
    class object [NotImplementedError] as its batch; nothing is raised and
    the generator stays alive. *)
Theorem base_policy_stream_yields_exception_class
    (self : ActorCriticTrainer Obs Act Block T) (L n : nat) :
  class_of self = Base ->
  max_slice_length self = Some L ->
  has_shape3
    (value_eval_model self (model_weights (value_trainer self))
       (observations (trajectory_batch_stream (task self)
                        (policy_stream_call self (L + 1)) n)))
    (policy_batch_size self) (L + 1) 1 = true ->
  policy_batches_stream self n = Ok (ExceptionClass NotImplementedError)
  /\ Py.next (policy_batches_stream self) (Generator n false)
     = (Ok (ExceptionClass NotImplementedError), Generator (S n) false).
Proof.
  intros Hcls HL H.
  destruct (policy_batch_accepts _ _ _ H) as (values & _ & _ & Heq).
  assert (Hn : policy_batches_stream self n
               = Ok (ExceptionClass NotImplementedError)).
  { rewrite (policy_batches_stream_unfold self L n HL), Heq.
    unfold policy_inputs. now rewrite Hcls. }
  split; [exact Hn|]. unfold Py.next. simpl. now rewrite Hn.
Qed.

End PolicyStream.

Section Sampling.

Context {Obs Act Block T : Type}.
Context {trainer : SupervisedTrainer Block (batch Obs Act) T}.

Lemma epochs_sampled_last (N : nat) :
  0 < N -> epochs_sampled N (Passed (Some [(-1)%Z])) = [N - 1].
Proof.
  intros HN. unfold epochs_sampled. simpl. f_equal.
  assert (H : ((-1) mod Z.of_nat N = Z.of_nat N - 1)%Z).
  { symmetry. apply Z.mod_unique with (q := (-1)%Z); lia. }
  rewrite H. lia.
Qed.

(** C8. Every batch of the policy batch stream comes from a request to the
    task for slices of length [L + 1], one more than the value stream's
    [L], with the final state included and trajectories sampled uniformly;
    with the on-policy flag set the epoch filter is [[-1]], the most recent
    generation only, otherwise there is no filter and the full retained
    history is sampled. *)
Theorem policy_stream_sampling
    (self : ActorCriticTrainer Obs Act Block T) (L n : nat) :
  max_slice_length self = Some L ->
  policy_batches_stream self n
  = policy_batch self (L + 1)
      (trajectory_batch_stream (task self)
         (policy_stream_call self (L + 1)) n)
  /\ arg_batch_size (policy_stream_call self (L + 1)) = policy_batch_size self
  /\ kw_max_slice_length (policy_stream_call self (L + 1))
     = Passed (Some (L + 1))
  /\ kw_max_slice_length (value_stream_call self) = Passed (Some L)
  /\ kw_include_final_state (policy_stream_call self (L + 1)) = Passed true
  /\ kw_sample_trajectories_uniformly (policy_stream_call self (L + 1))
     = Passed true
  /\ (on_policy self = true ->
      kw_epochs (policy_stream_call self (L + 1)) = Passed (Some [(-1)%Z])
      /\ (0 < n_epochs (task self) ->
          epochs_sampled (n_epochs (task self))
            (kw_epochs (policy_stream_call self (L + 1)))
          = [n_epochs (task self) - 1]))
  /\ (on_policy self = false ->
      kw_epochs (policy_stream_call self (L + 1)) = Passed None
      /\ epochs_sampled (n_epochs (task self))
           (kw_epochs (policy_stream_call self (L + 1)))
         = seq 0 (n_epochs (task self))).
Proof.
  intros HL. split; [now apply policy_batches_stream_unfold|].
  unfold policy_stream_call, value_stream_call; simpl.
  rewrite HL. do 5 (split; [reflexivity|]).
  split; intros Hon; rewrite Hon; (split; [reflexivity|]).
  - now apply epochs_sampled_last.
  - reflexivity.
Qed.

End Sampling.

Section StreamExamples.

Import Np.

Lemma value_batches_stream_shapes_witness :
  exists obs ret msk,
    value_batches_stream
      (Fixture.toy_coordinator A2C Fixture.toy_value_model) 0
    = Ok (ValueBatch obs ret msk)
    /\ has_shape2 obs 2 3 = true
    /\ has_shape3 ret 2 3 1 = true
    /\ has_shape3 msk 2 3 1 = true.
Proof.
  destruct (value_batches_stream_shapes
              (Fixture.toy_coordinator A2C Fixture.toy_value_model) 0 2 3
              eq_refl eq_refl eq_refl)
    as (obs & ret & msk & H & _ & _ & _ & Ho & Hr & Hm).
  exists obs, ret, msk. repeat split; assumption.
Defined.

Lemma a2c_policy_inputs_lengths_witness :
  exists advantages,
    policy_inputs (Fixture.toy_coordinator A2C Fixture.toy_value_model)
      Fixture.scenario Fixture.scenario_values
    = Ok (Inputs3 (observations Fixture.scenario)
                  (actions Fixture.scenario) advantages)
    /\ has_shape2 (observations Fixture.scenario) 2 4 = true
    /\ has_shape2 advantages 2 3 = true
    /\ at2 advantages 0 0 = (3 - 0)%R.
Proof.
  destruct (a2c_policy_inputs_lengths
              (Fixture.toy_coordinator A2C Fixture.toy_value_model)
              Fixture.scenario Fixture.scenario_values 2 3
              eq_refl eq_refl eq_refl eq_refl eq_refl)
    as (obs & act & adv & H & -> & -> & Ho & _ & Ha & Hat).
  exists adv. split; [exact H|]. split; [exact Ho|]. split; [exact Ha|].
  apply (Hat 0 0); lia.
Defined.

Lemma policy_stream_asserts_value_shape_witness :
  policy_batches_stream (trainer := Fixture.toy_trainer)
    (Fixture.toy_coordinator A2C Fixture.toy_wide_value_model) 0
  = Raise AssertionError.
Proof.
  destruct (policy_stream_asserts_value_shape (trainer := Fixture.toy_trainer)
              (Fixture.toy_coordinator A2C Fixture.toy_wide_value_model)
              3 0 eq_refl) as (_ & _ & H).
  apply H; [simpl; lia | reflexivity].
Defined.

Lemma base_policy_stream_yields_exception_class_witness :
  Py.next (policy_batches_stream (trainer := Fixture.toy_trainer)
             (Fixture.toy_coordinator Base Fixture.toy_value_model))
    Py.fresh
  = (Ok (ExceptionClass NotImplementedError), Generator 1 false).
Proof.
  apply (base_policy_stream_yields_exception_class
           (trainer := Fixture.toy_trainer)
           (Fixture.toy_coordinator Base Fixture.toy_value_model) 3 0);
    reflexivity.
Defined.

Lemma policy_stream_sampling_witness :
  kw_max_slice_length
    (policy_stream_call
       (Fixture.toy_coordinator A2C Fixture.toy_value_model) (3 + 1))
  = Passed (Some 4)
  /\ epochs_sampled 3
       (kw_epochs
          (policy_stream_call
             (Fixture.toy_coordinator A2C Fixture.toy_value_model) (3 + 1)))
     = [2].
Proof.
  destruct (policy_stream_sampling (trainer := Fixture.toy_trainer)
              (Fixture.toy_coordinator A2C Fixture.toy_value_model)
              3 0 eq_refl) as (_ & _ & Hlen & _ & _ & _ & Hon & _).
  split; [exact Hlen|].
  destruct (Hon eq_refl) as [_ He]. apply He. simpl. lia.
Defined.

End StreamExamples.

(** ** [train_epoch] and the shared parameter prefix *)

Section TrainEpoch.

Context {Obs Act Block T : Type}.
Context {trainer : SupervisedTrainer Block (batch Obs Act) T}.
Context {laws : SupervisedTrainerLaws trainer}.

Lemma copy_back_prefix (k : nat) (P3 V1 P1 : list Block) :
  length P3 = length (firstn k V1 ++ skipn k P1) ->
  firstn k (firstn k P3 ++ skipn k V1) = firstn k P3.
Proof.
  intros HP. rewrite List.length_app, List.length_firstn, List.length_skipn in HP.
  rewrite List.firstn_app, List.firstn_firstn, Nat.min_id, List.length_firstn.
  destruct (Nat.le_gt_cases k (length P3)) as [Hle | Hlt].
  - replace (k - Nat.min k (length P3)) with 0 by lia.
    simpl. apply List.app_nil_r.
  - rewrite (List.skipn_all2 V1) by lia.
    rewrite List.firstn_nil. apply List.app_nil_r.
Qed.

Lemma value_epoch_inv (self s1 : ActorCriticTrainer Obs Act Block T) :
  value_epoch self = Ok s1 ->
  exists vt,
    trainer_train_epoch (value_train_steps_per_epoch self) 1
      (value_batches_stream self) (value_trainer self) = Ok vt
    /\ s1 = with_value_trainer self vt.
Proof.
  unfold value_epoch. intros H.
  destruct (trainer_train_epoch _ _ _ _) as [vt|e]; simpl in H;
    [|discriminate].
  exists vt. split; [reflexivity|]. now inversion H.
Qed.

Lemma policy_epoch_inv (self s3 : ActorCriticTrainer Obs Act Block T) :
  policy_epoch self = Ok s3 ->
  exists pt,
    trainer_train_epoch (policy_train_steps_per_epoch self) 1
      (policy_batches_stream self) (policy_trainer self) = Ok pt
    /\ s3 = with_policy_trainer self pt.
Proof.
  unfold policy_epoch. intros H.
  destruct (trainer_train_epoch _ _ _ _) as [pt|e]; simpl in H;
    [|discriminate].
  exists pt. split; [reflexivity|]. now inversion H.
Qed.

(** With a positive number of shared layers the two guards of
    [train_epoch] are taken: the call is the four steps in sequence. *)
Lemma train_epoch_steps (self self' : ActorCriticTrainer Obs Act Block T) :
  (0 < n_shared_layers self)%Z ->
  train_epoch self = Ok self' ->
  exists s1 s3,
    value_epoch self = Ok s1
    /\ policy_epoch (copy_value_to_policy s1) = Ok s3
    /\ self' = copy_policy_to_value s3.
Proof.
  intros Hk H. unfold train_epoch in H.
  destruct (value_epoch self) as [s1|e] eqn:Hv; simpl in H; [|discriminate].
  destruct (value_epoch_inv _ _ Hv) as (vt & _ & Hs1).
  assert (Hk1 : (0 <? n_shared_layers s1)%Z = true)
    by (subst s1; simpl; now apply Z.ltb_lt).
  rewrite Hk1 in H.
  destruct (policy_epoch (copy_value_to_policy s1)) as [s3|e] eqn:Hp;
    simpl in H; [|discriminate].
  destruct (policy_epoch_inv _ _ Hp) as (pt & _ & Hs3).
  assert (Hk3 : (0 <? n_shared_layers s3)%Z = true)
    by (subst s3; simpl; exact Hk1).
  rewrite Hk3 in H. inversion H. now exists s1, s3.
Qed.

(** Whatever the trainers do to the number of blocks: if the policy model
    has at least [k] blocks when the call returns, the value model has the
    same first [k] blocks. *)
Lemma train_epoch_shares_existing_prefix
    (self self' : ActorCriticTrainer Obs Act Block T) :
  (0 < n_shared_layers self)%Z ->
  train_epoch self = Ok self' ->
  Z.to_nat (n_shared_layers self)
    <= length (model_weights (policy_trainer self')) ->
  firstn (Z.to_nat (n_shared_layers self))
    (model_weights (value_trainer self'))
  = firstn (Z.to_nat (n_shared_layers self))
      (model_weights (policy_trainer self')).
Proof.
  intros Hk H Hlen.
  destruct (train_epoch_steps self self' Hk H) as (s1 & s3 & Hv & Hp & ->).
  destruct (value_epoch_inv _ _ Hv) as (vt & _ & Hs1).
  destruct (policy_epoch_inv _ _ Hp) as (pt & _ & Hs3).
  assert (Hn3 : n_shared_layers s3 = n_shared_layers self)
    by (subst s3 s1; reflexivity).
  change (policy_trainer (copy_policy_to_value s3)) with (policy_trainer s3)
    in *.
  unfold copy_policy_to_value; simpl.
  rewrite model_weights_set. unfold copy_shared. rewrite Hn3.
  rewrite List.firstn_app, List.firstn_firstn, Nat.min_id, List.length_firstn.
  replace (Z.to_nat (n_shared_layers self)
           - Nat.min (Z.to_nat (n_shared_layers self))
               (length (model_weights (policy_trainer s3)))) with 0 by lia.
  simpl. apply List.app_nil_r.
Qed.

(** C1. A call of [train_epoch] with [n_shared_layers = k > 0] that
    returns has run, in this order: one training epoch of the value
    trainer ([value_train_steps_per_epoch] steps on the value batch
    stream); the copy of the first [k] parameter blocks of the value model
    into the policy model; one training epoch of the policy trainer
    ([policy_train_steps_per_epoch] steps on the policy batch stream of
    the coordinator as it then is, from the policy trainer with the copied
    blocks); and the copy of the first [k] blocks of the policy model back
    into the value model.  On return the first [k] parameter blocks of the
    two models are equal. *)
Theorem train_epoch_shares_prefix
    (self self' : ActorCriticTrainer Obs Act Block T) :
  (0 < n_shared_layers self)%Z ->
  train_epoch self = Ok self' ->
  exists vt pt s1 s3,
    trainer_train_epoch (value_train_steps_per_epoch self) 1
      (value_batches_stream self) (value_trainer self) = Ok vt
    /\ s1 = with_value_trainer self vt
    /\ value_epoch self = Ok s1
    /\ copy_value_to_policy s1
       = with_policy_trainer (with_value_trainer self vt)
           (set_model_weights
              (firstn (Z.to_nat (n_shared_layers self)) (model_weights vt)
               ++ skipn (Z.to_nat (n_shared_layers self))
                    (model_weights (policy_trainer self)))
              (policy_trainer self))
    /\ model_weights (policy_trainer (copy_value_to_policy s1))
       = firstn (Z.to_nat (n_shared_layers self))
           (model_weights (value_trainer s1))
         ++ skipn (Z.to_nat (n_shared_layers self))
              (model_weights (policy_trainer s1))
    /\ value_trainer (copy_value_to_policy s1) = value_trainer s1
    /\ trainer_train_epoch (policy_train_steps_per_epoch self) 1
         (policy_batches_stream
            (with_policy_trainer (with_value_trainer self vt)
               (set_model_weights
                  (firstn (Z.to_nat (n_shared_layers self))
                     (model_weights vt)
                   ++ skipn (Z.to_nat (n_shared_layers self))
                        (model_weights (policy_trainer self)))
                  (policy_trainer self))))
         (set_model_weights
            (firstn (Z.to_nat (n_shared_layers self)) (model_weights vt)
             ++ skipn (Z.to_nat (n_shared_layers self))
                  (model_weights (policy_trainer self)))
            (policy_trainer self)) = Ok pt
    /\ s3 = with_policy_trainer (with_value_trainer self vt) pt
    /\ policy_epoch (copy_value_to_policy s1) = Ok s3
    /\ self' = copy_policy_to_value s3
    /\ self' = with_value_trainer
                 (with_policy_trainer (with_value_trainer self vt) pt)
                 (set_model_weights
                    (firstn (Z.to_nat (n_shared_layers self))
                       (model_weights pt)
                     ++ skipn (Z.to_nat (n_shared_layers self))
                          (model_weights vt))
                    vt)
    /\ model_weights (value_trainer self')
       = firstn (Z.to_nat (n_shared_layers self))
           (model_weights (policy_trainer s3))
         ++ skipn (Z.to_nat (n_shared_layers self))
              (model_weights (value_trainer s3))
    /\ policy_trainer self' = policy_trainer s3
    /\ firstn (Z.to_nat (n_shared_layers self))
         (model_weights (value_trainer self'))
       = firstn (Z.to_nat (n_shared_layers self))
           (model_weights (policy_trainer self')).
Proof.
  intros Hk H.
  destruct (train_epoch_steps self self' Hk H) as (s1 & s3 & Hv & Hp & ->).
  destruct (value_epoch_inv _ _ Hv) as (vt & Hvt & Hs1).
  destruct (policy_epoch_inv _ _ Hp) as (pt & Hpt & Hs3).
  exists vt, pt, s1, s3.
  assert (Hn1 : n_shared_layers s1 = n_shared_layers self)
    by (subst s1; reflexivity).
  assert (Hn3 : n_shared_layers s3 = n_shared_layers self)
    by (subst s3; simpl; exact Hn1).
  assert (Hc2 :
    copy_value_to_policy s1
    = with_policy_trainer (with_value_trainer self vt)
        (set_model_weights
           (firstn (Z.to_nat (n_shared_layers self)) (model_weights vt)
            ++ skipn (Z.to_nat (n_shared_layers self))
                 (model_weights (policy_trainer self)))
           (policy_trainer self)))
    by (subst s1; reflexivity).
  assert (Hcopy :
    model_weights (policy_trainer (copy_value_to_policy s1))
    = firstn (Z.to_nat (n_shared_layers self))
        (model_weights (value_trainer s1))
      ++ skipn (Z.to_nat (n_shared_layers self))
           (model_weights (policy_trainer s1))).
  { unfold copy_value_to_policy; simpl.
    rewrite model_weights_set. unfold copy_shared. now rewrite Hn1. }
  assert (Hback :
    model_weights (value_trainer (copy_policy_to_value s3))
    = firstn (Z.to_nat (n_shared_layers self))
        (model_weights (policy_trainer s3))
      ++ skipn (Z.to_nat (n_shared_layers self))
           (model_weights (value_trainer s3))).
  { unfold copy_policy_to_value; simpl.
    rewrite model_weights_set. unfold copy_shared. now rewrite Hn3. }
  assert (Hs3' : s3 = with_policy_trainer (with_value_trainer self vt) pt)
    by (rewrite Hs3, Hc2; reflexivity).
  split; [exact Hvt|]. split; [exact Hs1|]. split; [exact Hv|].
  split; [exact Hc2|]. split; [exact Hcopy|]. split; [reflexivity|].
  split; [rewrite Hc2 in Hpt; exact Hpt|].
  split; [exact Hs3'|]. split; [exact Hp|]. split; [reflexivity|].
  split; [rewrite Hs3'; reflexivity|].
  split; [exact Hback|]. split; [reflexivity|].
  rewrite Hback.
  change (policy_trainer (copy_policy_to_value s3)) with (policy_trainer s3).
  assert (Hv3 : value_trainer s3 = value_trainer s1)
    by (subst s3; reflexivity).
  rewrite Hv3.
  apply copy_back_prefix
    with (P1 := model_weights (policy_trainer s1)).
  rewrite <- Hcopy.
  assert (Hp3 : policy_trainer s3 = pt) by (subst s3; reflexivity).
  rewrite Hp3. exact (train_epoch_blocks _ _ _ _ _ Hpt).
Qed.

End TrainEpoch.

Section TrainEpochExample.

Lemma toy_trainer_laws : SupervisedTrainerLaws Fixture.toy_trainer.
Proof.
  split.
  - reflexivity.
  - intros n m s t t' H. simpl in *.
    destruct (s 0) as [b|e]; [|discriminate].
    inversion H. now rewrite length_map.
Qed.

Lemma toy_train_epoch :
  exists self',
    train_epoch (trainer := Fixture.toy_trainer)
      (Fixture.toy_coordinator A2C Fixture.toy_value_model) = Ok self'
    /\ value_trainer self' = [13; 14; 8]
    /\ policy_trainer self' = [13; 14; 13; 14].
Proof.
  eexists. split; [reflexivity|]. split; reflexivity.
Qed.

Lemma train_epoch_shares_prefix_witness :
  exists self',
    train_epoch (trainer := Fixture.toy_trainer)
      (Fixture.toy_coordinator A2C Fixture.toy_value_model) = Ok self'
    /\ value_trainer self' = [13; 14; 8]
    /\ policy_trainer self' = [13; 14; 13; 14]
    /\ firstn 2 (model_weights (SupervisedTrainer := Fixture.toy_trainer)
                   (value_trainer self'))
       = firstn 2 (model_weights (SupervisedTrainer := Fixture.toy_trainer)
                     (policy_trainer self')).
Proof.
  destruct toy_train_epoch as (self' & Hrun & _).
  exists self'. split; [exact Hrun|].
  destruct (train_epoch_shares_prefix (laws := toy_trainer_laws)
              (Fixture.toy_coordinator A2C Fixture.toy_value_model) self'
              eq_refl Hrun)
    as (vt & pt & s1 & s3 & Hvt & _ & _ & _ & _ & _ & Hpt & _ & _ & _
        & Hself & _ & _ & H).
  simpl in Hvt. inversion Hvt; subst vt.
  simpl in Hpt. inversion Hpt; subst pt.
  split; [now rewrite Hself|]. split; [now rewrite Hself|]. exact H.
Defined.

End TrainEpochExample.

(** ** The value trainer's output directory *)

Section OutputDir.

Import PosixPath.
Local Open Scope string_scope.

Lemma contains_sep_app (a b : string) :
  contains_sep (a ++ b) = contains_sep a || contains_sep b.
Proof.
  induction a as [|c a IH]; simpl; [reflexivity|].
  now rewrite IH, orb_assoc.
Qed.

Lemma endswith_sep_contains (s : string) :
  endswith_sep s = true -> contains_sep s = true.
Proof.
  induction s as [|c s IH]; simpl; [discriminate|].
  destruct s as [|c' s'].
  - intros ->. reflexivity.
  - intros H. rewrite (IH H). apply orb_true_r.
Qed.

Lemma join_absolute (d : string) : join d ["/value"] = "/value".
Proof. reflexivity. Qed.

Lemma join_relative (d rel : string) :
  startswith_sep rel = false ->
  join d [rel]
  = if String.eqb d "" || endswith_sep d then d ++ rel
    else d ++ String sep rel.
Proof. intros H. unfold join, join_step; simpl. now rewrite H. Qed.

Lemma below_slash_value (d : string) : below d "/value" <-> d = "/".
Proof.
  split.
  - intros (rel & Hne & Hrel & Hjoin).
    rewrite (join_relative d rel Hrel) in Hjoin.
    destruct d as [|c d'].
    + change ("/value" = rel) in Hjoin. subst rel. discriminate.
    + change (String.eqb (String c d') "") with false in Hjoin.
      rewrite orb_false_l in Hjoin.
      destruct (endswith_sep (String c d')) eqn:Hend.
      * change (String c d' ++ rel) with (String c (d' ++ rel)) in Hjoin.
        injection Hjoin as Hc Hrest. subst c.
        destruct d' as [|c' d'']; [reflexivity|].
        assert (Hc' : contains_sep (String c' d'') = true)
          by (apply endswith_sep_contains; exact Hend).
        assert (Hv : contains_sep "value" = false) by reflexivity.
        rewrite Hrest, contains_sep_app, Hc' in Hv. discriminate.
      * change (String c d' ++ String sep rel)
          with (String c (d' ++ String sep rel)) in Hjoin.
        injection Hjoin as Hc Hrest.
        assert (Hv : contains_sep "value" = false) by reflexivity.
        rewrite Hrest, contains_sep_app in Hv. simpl in Hv.
        rewrite orb_true_r in Hv. discriminate.
  - intros ->. exists "value". repeat split; discriminate.
Qed.

(** C10, amended. For every configured output directory [d] the value
    trainer's output directory is [os.path.join(d, '/value')], which is
    always the root-level path ['/value'] whatever [d] is; it lies below
    the configured directory only when that directory is the root ['/']
    itself. *)
Theorem value_output_dir_discards_configured_dir
    (kwargs : gmap string value) (d : string) :
  kwargs !! "output_dir" = Some (PyStr d) ->
  value_output_dir kwargs = Ok (Some (join d ["/value"]))
  /\ join d ["/value"] = "/value"
  /\ (below d (join d ["/value"]) <-> d = "/").
Proof.
  intros H. unfold value_output_dir. rewrite H.
  split; [reflexivity|]. split; [reflexivity|].
  rewrite join_absolute. apply below_slash_value.
Qed.

Lemma value_output_dir_discards_configured_dir_witness :
  value_output_dir {[ "output_dir" := PyStr "/tmp/run" ]} = Ok (Some "/value")
  /\ ~ below "/tmp/run" "/value".
Proof.
  destruct (value_output_dir_discards_configured_dir
              {[ "output_dir" := PyStr "/tmp/run" ]} "/tmp/run"
              (lookup_singleton_eq _ _)) as (H1 & H2 & H3).
  split; [exact H1|].
  intros Hb. apply H3 in Hb. discriminate.
Defined.

(** C10, the claim as stated fails: configured with the root directory
    ['/'], the value trainer's output directory ['/value'] is a
    subdirectory of the configured directory. *)
Lemma value_output_dir_below_root :
  value_output_dir {[ "output_dir" := PyStr "/" ]} = Ok (Some "/value")
  /\ below "/" "/value".
Proof.
  split.
  - unfold value_output_dir. now rewrite lookup_singleton_eq.
  - exists "value". repeat split; discriminate.
Qed.

End OutputDir.

(** ** Construction of the AWR trainer *)

Section AWRConstruction.

Context {Obs Act Block T : Type}.
Context {trainer : SupervisedTrainer Block (batch Obs Act) T}.
Context {ctors : Constructors Obs Act Block T}.

Local Open Scope string_scope.

Lemma ActorCriticTrainer_init_inv (cls : subclass) (task0 : RLTask Obs Act)
    (kw : gmap string value) (self : ActorCriticTrainer Obs Act Block T) :
  ActorCriticTrainer_init cls task0 kw = Ok self ->
  class_of self = cls /\ on_policy self = kw_bool "on_policy" true kw.
Proof.
  unfold ActorCriticTrainer_init. intros H.
  destruct (value_output_dir _) as [out|e]; simpl in H; [|discriminate].
  destruct (default PyNone (kw !! "value_model")) eqn:Hm; simpl in H;
    try discriminate;
    (destruct (PolicyTrainer_init _ _) as [p|e]; simpl in H; [|discriminate];
     inversion H; split; reflexivity).
Qed.

Lemma ActorCriticTrainer_init_returns (cls : subclass)
    (task0 : RLTask Obs Act) (kw : gmap string value)
    (out : option string) (p : policy_trainer_state Obs Act T) :
  value_output_dir (foldr delete kw named_parameters) = Ok out ->
  default PyNone (kw !! "value_model") <> PyNone ->
  PolicyTrainer_init task0 (foldr delete kw named_parameters) = Ok p ->
  exists self, ActorCriticTrainer_init cls task0 kw = Ok self.
Proof.
  intros Hout Hm Hp. unfold ActorCriticTrainer_init.
  rewrite Hout; cbn [Py.bind].
  destruct (default PyNone (kw !! "value_model")) eqn:Hv;
    try congruence; cbn [Py.bind]; rewrite Hp; cbn [Py.bind];
    eexists; reflexivity.
Qed.

(** C9. The AWR constructor passes [on_policy=False] to the base
    constructor itself: a caller who also passes [on_policy] gets a
    TypeError for the repeated keyword, and every AWR trainer that is
    constructed has the on-policy flag False, so its policy batch stream
    asks the task for no epoch filter and samples the full retained
    history; construction succeeds whenever the collaborators'
    constructors do. *)
Theorem awr_init_forces_off_policy (task0 : RLTask Obs Act) (beta w_max : R)
    (kwargs : gmap string value) :
  (forall v, kwargs !! "on_policy" = Some v ->
     AWRTrainer_init task0 beta w_max kwargs = Raise TypeError)
  /\ (forall self, AWRTrainer_init task0 beta w_max kwargs = Ok self ->
        kwargs !! "on_policy" = None
        /\ class_of self = AWR beta w_max
        /\ on_policy self = false
        /\ forall len,
             kw_epochs (policy_stream_call self len) = Passed None
             /\ epochs_sampled (n_epochs (task self))
                  (kw_epochs (policy_stream_call self len))
                = seq 0 (n_epochs (task self)))
  /\ (forall out p,
        kwargs !! "on_policy" = None ->
        value_output_dir
          (foldr delete (<["on_policy" := PyBool false]> kwargs)
             named_parameters) = Ok out ->
        default PyNone (kwargs !! "value_model") <> PyNone ->
        PolicyTrainer_init task0
          (foldr delete (<["on_policy" := PyBool false]> kwargs)
             named_parameters) = Ok p ->
        exists self, AWRTrainer_init task0 beta w_max kwargs = Ok self).
Proof.
  split; [|split].
  - intros v Hv. unfold AWRTrainer_init, call_with_keyword. now rewrite Hv.
  - intros self H. unfold AWRTrainer_init, call_with_keyword in H.
    destruct (kwargs !! "on_policy") as [v|] eqn:Hk; simpl in H;
      [discriminate|].
    apply ActorCriticTrainer_init_inv in H as [Hcls Hon].
    assert (Hoff : on_policy self = false).
    { rewrite Hon. unfold kw_bool. now rewrite lookup_insert_eq. }
    split; [reflexivity|]. split; [exact Hcls|]. split; [exact Hoff|].
    intros len. unfold policy_stream_call; simpl. rewrite Hoff.
    split; reflexivity.
  - intros out p Hk Hout Hm Hp. unfold AWRTrainer_init, call_with_keyword.
    rewrite Hk; simpl.
    apply (ActorCriticTrainer_init_returns _ _ _ out p Hout); [|exact Hp].
    rewrite lookup_insert_ne by discriminate. exact Hm.
Qed.

End AWRConstruction.

Section AWRConstructionExample.

Local Open Scope string_scope.

(** An AWR trainer built by the constructor without an [on_policy]
    keyword, and the TypeError for a caller who passes one. *)
Lemma awr_init_forces_off_policy_witness :
  (exists self,
     AWRTrainer_init (ctors := Fixture.toy_ctors) Fixture.toy_task 1 20
       {[ "value_model" := PyObj 7 ]} = Ok self
     /\ on_policy self = false
     /\ kw_epochs (policy_stream_call self 4) = Passed None)
  /\ AWRTrainer_init (ctors := Fixture.toy_ctors) Fixture.toy_task 1 20
       {[ "on_policy" := PyBool true ]} = Raise TypeError.
Proof.
  split.
  - destruct (awr_init_forces_off_policy (ctors := Fixture.toy_ctors)
                Fixture.toy_task 1 20 {[ "value_model" := PyObj 7 ]})
      as (_ & Hoff & Hret).
    destruct (Hret None
                {| pts_task := Fixture.toy_task;
                   pts_max_slice_length := Some 1;
                   pts_policy_trainer := [4; 5; 6; 7];
                   pts_policy_batch_size := 64;
                   pts_policy_train_steps_per_epoch := 500 |})
      as (self & Hself).
    + apply lookup_singleton_ne. discriminate.
    + vm_compute. reflexivity.
    + rewrite lookup_singleton_eq. discriminate.
    + vm_compute. reflexivity.
    + exists self. split; [exact Hself|].
      destruct (Hoff self Hself) as (_ & _ & Hon & Hep).
      split; [exact Hon|]. apply Hep.
  - destruct (awr_init_forces_off_policy (ctors := Fixture.toy_ctors)
                Fixture.toy_task 1 20 {[ "on_policy" := PyBool true ]})
      as (Hdup & _).
    apply (Hdup (PyBool true)). apply lookup_singleton_eq.
Defined.

End AWRConstructionExample.

(** ** The PPO loss *)

Section PPOLoss.

Context {Obs Act Block T : Type}.
Context {ctors : Constructors Obs Act Block T}.

Import Np.
Local Open Scope R_scope.

Lemma exp_quotient (x y : R) :
  Rtrigo_def.exp x / Rtrigo_def.exp y = Rtrigo_def.exp (x - y).
Proof.
  unfold Rminus, Rdiv. now rewrite exp_plus, exp_Ropp.
Qed.

Lemma exp_div_rows (a b : array2 R) :
  zip_with (zip_with Rdiv) (exp a) (exp b)
  = exp (zip_with (zip_with Rminus) a b).
Proof.
  unfold exp, pointwise.
  revert b; induction a as [|r a IH]; intros [|s b]; simpl;
    try reflexivity.
  rewrite IH. f_equal.
  clear. revert s; induction r as [|x r IH]; intros [|y s]; simpl;
    try reflexivity.
  now rewrite IH, exp_quotient.
Qed.

Lemma stack2_same_shape (a b : array2 R) (B T' : nat) :
  has_shape2 a B T' = true -> has_shape2 b B T' = true ->
  stack2 a b = Ok [a; b].
Proof.
  intros Ha Hb. unfold stack2.
  assert (H : (length a =? length b)%nat
              && forallb (fun p => (length (fst p) =? length (snd p))%nat)
                   (zip a b) = true).
  { revert a b Ha Hb; induction B as [|B IH]; intros a b Ha Hb.
    - apply has_shape2_nil_inv in Ha, Hb. now subst.
    - apply has_shape2_cons_inv in Ha as (r1 & a' & -> & Hr1 & Ha).
      apply has_shape2_cons_inv in Hb as (r2 & b' & -> & Hr2 & Hb).
      specialize (IH a' b' Ha Hb). apply andb_true_iff in IH as [IH1 IH2].
      simpl. apply andb_true_iff. split; [exact IH1|].
      apply andb_true_iff. split; [|exact IH2].
      apply Nat.eqb_eq. congruence. }
  now rewrite H.
Qed.

(** The loss never looks at its [old_log_probs] argument. *)
Lemma ppo_loss_ignores_argument (ppo_eps : R) (attr : option (array2 R))
    (new_log_probs advantages old old' : array2 R) :
  ppo_loss ppo_eps attr new_log_probs advantages old
  = ppo_loss ppo_eps attr new_log_probs advantages old'.
Proof. reflexivity. Qed.

(** Were the attribute set to the very array passed as argument, the code
    and the specification's formula would agree over the reals. *)
Lemma ppo_loss_with_attribute_set (ppo_eps : R)
    (new_log_probs advantages old : array2 R) (B T' : nat) :
  has_shape2 new_log_probs B T' = true ->
  has_shape2 advantages B T' = true ->
  has_shape2 old B T' = true ->
  ppo_loss ppo_eps (Some old) new_log_probs advantages old
  = ppo_loss_spec ppo_eps new_log_probs advantages old.
Proof.
  intros Hnew Hadv Hold. unfold ppo_loss, ppo_loss_spec; simpl.
  assert (Hen : has_shape2 (exp new_log_probs) B T' = true)
    by (unfold exp; now rewrite has_shape2_pointwise).
  assert (Heo : has_shape2 (exp old) B T' = true)
    by (unfold exp; now rewrite has_shape2_pointwise).
  unfold div, sub, mul.
  rewrite (binop_same_shape Rdiv _ _ B T' Hen Heo).
  rewrite (binop_same_shape Rminus _ _ B T' Hnew Hold). simpl.
  rewrite exp_div_rows.
  set (ratio := exp (zip_with (zip_with Rminus) new_log_probs old)).
  assert (Hr : has_shape2 ratio B T' = true).
  { unfold ratio, exp. rewrite has_shape2_pointwise.
    now apply has_shape2_zip_with. }
  assert (Hc : has_shape2 (clamp (1 - ppo_eps) ratio (1 + ppo_eps)) B T'
               = true)
    by (unfold clamp; now rewrite has_shape2_pointwise).
  rewrite (binop_same_shape Rmult _ _ B T' Hr Hadv). simpl.
  rewrite (binop_same_shape Rmult _ _ B T' Hc Hadv). simpl.
  pose proof (has_shape2_zip_with Rmult _ _ B T' Hr Hadv) as Hu.
  pose proof (has_shape2_zip_with Rmult _ _ B T' Hc Hadv) as Hcl.
  rewrite (stack2_same_shape _ _ B T' Hu Hcl). simpl.
  now rewrite (binop_same_shape Rmin _ _ B T' Hu Hcl).
Qed.

(** C2, what the code does: [ppo_loss] takes the old log-probabilities from
    the attribute [self.old_log_probs], which no constructor sets; on every
    [PPOTrainer] the constructor returns, the loss raises AttributeError
    for every argument triple. *)
Theorem ppo_loss_reads_unset_attribute (task0 : RLTask Obs Act)
    (ppo_eps : R) (kwargs : gmap string value)
    (self : ActorCriticTrainer Obs Act Block T)
    (new_log_probs advantages old_log_probs : array2 R) :
  PPOTrainer_init task0 ppo_eps kwargs = Ok self ->
  call_ppo_loss self new_log_probs advantages old_log_probs
  = Raise AttributeError.
Proof.
  intros H. unfold PPOTrainer_init in H.
  apply ActorCriticTrainer_init_inv in H as [Hcls _].
  unfold call_ppo_loss. now rewrite Hcls.
Qed.

End PPOLoss.

Section PPOLossExamples.

Import Np.
Local Open Scope R_scope.
Local Open Scope string_scope.

Lemma ppo_loss_reads_unset_attribute_witness :
  exists self,
    PPOTrainer_init (ctors := Fixture.toy_ctors) Fixture.toy_task 0.2
      {[ "value_model" := PyObj 7 ]} = Ok self
    /\ call_ppo_loss self [[0]] [[1]] [[0]] = Raise AttributeError.
Proof.
  assert (H : exists self,
             PPOTrainer_init (ctors := Fixture.toy_ctors) Fixture.toy_task 0.2
               {[ "value_model" := PyObj 7 ]} = Ok self).
  { apply (ActorCriticTrainer_init_returns (ctors := Fixture.toy_ctors)
             _ _ _ None
             {| pts_task := Fixture.toy_task;
                pts_max_slice_length := Some 1%nat;
                pts_policy_trainer := [4; 5; 6; 7]%nat;
                pts_policy_batch_size := 64%nat;
                pts_policy_train_steps_per_epoch := 500%nat |}).
    - vm_compute. reflexivity.
    - rewrite lookup_singleton_eq. discriminate.
    - vm_compute. reflexivity. }
  destruct H as (self & Hself). exists self. split; [exact Hself|].
  exact (ppo_loss_reads_unset_attribute (ctors := Fixture.toy_ctors)
           Fixture.toy_task 0.2 {[ "value_model" := PyObj 7 ]} self
           [[0]] [[1]] [[0]] Hself).
Defined.

(** With the attribute set by hand to [[0]], a call that passes [[1]] as
    [old_log_probs] returns -1, the loss for old log-probabilities 0; the
    specification's formula on the arguments of the call gives
    -exp(-1), which is larger. *)
Lemma ppo_loss_uses_attribute_value :
  exists l l',
    ppo_loss 0.2 (Some [[0]]) [[0]] [[1]] [[1]] = Ok l
    /\ ppo_loss_spec 0.2 [[0]] [[1]] [[1]] = Ok l'
    /\ l = -1 /\ -1 < l'.
Proof.
  eexists. eexists. split; [reflexivity|]. split; [reflexivity|].
  unfold mean, total, size; simpl.
  split.
  - rewrite exp_0.
    replace (1 / 1 * 1) with 1 by lra.
    replace (1 / 1) with 1 by lra.
    rewrite (Rmax_right (1 - 0.2) 1) by lra.
    rewrite (Rmin_left 1 (1 + 0.2)) by lra.
    replace (1 * 1) with 1 by lra.
    rewrite Rmin_left by lra. lra.
  - assert (He : Rtrigo_def.exp (0 - 1) < Rtrigo_def.exp 0)
      by (apply exp_increasing; lra).
    rewrite exp_0 in He.
    pose proof (Rmin_l (Rtrigo_def.exp (0 - 1) * 1)
                  (Rmin (Rmax (1 - 0.2) (Rtrigo_def.exp (0 - 1))) (1 + 0.2)
                   * 1)) as Hm.
    lra.
Qed.

End PPOLossExamples.

(** * Further properties of the module *)

(** ** More on arrays *)

Section MoreArrayFacts.

Import Np.

Lemma has_shape2_length {A} (a : array2 A) (B T : nat) :
  has_shape2 a B T = true -> length a = B.
Proof. intros H. now apply has_shape2_spec in H as [H _]. Qed.

Lemma broadcast_axis_mismatch {A B C} (f : A -> B -> result C)
    (r1 : list A) (r2 : list B) :
  length r1 <> length r2 -> length r1 <> 1 -> length r2 <> 1 ->
  broadcast_axis f r1 r2 = Raise ValueError.
Proof.
  intros Hne H1 H2. unfold broadcast_axis.
  rewrite (proj2 (Nat.eqb_neq _ _) Hne).
  destruct r1 as [|x [|x' r1]]; destruct r2 as [|y [|y' r2]];
    simpl in *; try reflexivity; lia.
Qed.

(** Rows of different lengths, neither of length one, cannot be broadcast:
    the operation raises ValueError. *)
Lemma binop_mismatch (f : R -> R -> R) (a b : array2 R) (B n m : nat) :
  0 < B -> has_shape2 a B n = true -> has_shape2 b B m = true ->
  n <> m -> n <> 1 -> m <> 1 ->
  binop f a b = Raise ValueError.
Proof.
  intros HB Ha Hb Hnm Hn Hm. unfold binop.
  pose proof (has_shape2_length a B n Ha) as La.
  pose proof (has_shape2_length b B m Hb) as Lb.
  unfold broadcast_axis at 1.
  rewrite (proj2 (Nat.eqb_eq (length a) (length b))) by congruence.
  destruct B as [|B]; [lia|].
  apply has_shape2_cons_inv in Ha as (r1 & a' & -> & Hr1 & _).
  apply has_shape2_cons_inv in Hb as (r2 & b' & -> & Hr2 & _).
  simpl. rewrite broadcast_axis_mismatch by congruence. reflexivity.
Qed.

Lemma sequence_map_single (f : R -> R -> R) (x : R) (r : list R) :
  Py.sequence (map (fun y => Ok (f x y)) r) = Ok (map (f x) r).
Proof.
  induction r as [|y r IH]; simpl; [reflexivity | now rewrite IH].
Qed.

Lemma broadcast_axis_single (f : R -> R -> R) (x : R) (r : list R) :
  length r <> 1 ->
  broadcast_axis (fun u v => Ok (f u v)) [x] r = Ok (map (f x) r).
Proof.
  intros Hr. unfold broadcast_axis.
  assert (H : (length [x] =? length r) = false)
    by (apply Nat.eqb_neq; simpl; lia).
  rewrite H. apply sequence_map_single.
Qed.

(** A one-column array against a wider one: the column is repeated along
    the time axis. *)
Lemma binop_broadcast_column (f : R -> R -> R) (a b : array2 R) (B m : nat) :
  has_shape2 a B 1 = true -> has_shape2 b B m = true -> m <> 1 ->
  exists c,
    binop f a b = Ok c
    /\ has_shape2 c B m = true
    /\ forall i j, i < B -> j < m ->
         at2 c i j = f (at2 a i 0) (at2 b i j).
Proof.
  intros Ha Hb Hm. unfold binop.
  pose proof (has_shape2_length a B 1 Ha) as La.
  pose proof (has_shape2_length b B m Hb) as Lb.
  unfold broadcast_axis at 1.
  rewrite (proj2 (Nat.eqb_eq (length a) (length b))) by congruence.
  clear La Lb. revert a b Ha Hb; induction B as [|B IH]; intros a b Ha Hb.
  - apply has_shape2_nil_inv in Ha, Hb. subst. exists []. simpl.
    repeat split; intros; lia.
  - apply has_shape2_cons_inv in Ha as (r1 & a' & -> & Hr1 & Ha).
    apply has_shape2_cons_inv in Hb as (r2 & b' & -> & Hr2 & Hb).
    destruct (IH a' b' Ha Hb) as (c & Hc & Hshape & Hat).
    destruct r1 as [|x [|x' r1]]; simpl in Hr1; try lia.
    exists (map (f x) r2 :: c). simpl.
    rewrite broadcast_axis_single by congruence. simpl. rewrite Hc. simpl.
    split; [reflexivity|]. split.
    + apply has_shape2_cons. split; [now rewrite length_map | exact Hshape].
    + intros i j Hi Hj. destruct i as [|i].
      * unfold at2; simpl.
        rewrite (nth_indep _ 0%R (f x 0%R)) by (rewrite length_map; lia).
        now rewrite map_nth.
      * apply (Hat i j); lia.
Qed.

(** The trailing axis added by [a[:, :, None]] is the one
    [np.squeeze(_, axis=2)] removes. *)
Lemma squeeze_new_axis (a : array2 R) : squeeze 0%R (new_axis a) = Ok a.
Proof.
  unfold squeeze, new_axis.
  assert (H : forallb (forallb (fun cell : list R => length cell =? 1))
                (map (map (fun x : R => [x])) a) = true).
  { apply forallb_forall. intros row Hrow.
    apply in_map_iff in Hrow as (r & <- & _).
    apply forallb_forall. intros cell Hcell.
    apply in_map_iff in Hcell as (x & <- & _). reflexivity. }
  rewrite H. f_equal. rewrite map_map.
  rewrite <- (map_id a) at 2. apply map_ext. intros r.
  rewrite map_map. rewrite <- (map_id r) at 2. now apply map_ext.
Qed.

Lemma new_axis_squeeze (out : array3 R) (values : array2 R) :
  squeeze 0%R out = Ok values -> new_axis values = out.
Proof.
  unfold squeeze, new_axis.
  destruct (forallb _ out) eqn:H; [|discriminate].
  intros Heq. inversion Heq; subst values. clear Heq.
  rewrite map_map. rewrite <- (map_id out) at 2.
  apply map_ext_in. intros row Hrow.
  rewrite forallb_forall in H. specialize (H row Hrow).
  rewrite map_map. rewrite <- (map_id row) at 2.
  apply map_ext_in. intros cell Hcell.
  rewrite forallb_forall in H. specialize (H cell Hcell).
  apply Nat.eqb_eq in H.
  destruct cell as [|x [|y cell]]; simpl in *; try lia. reflexivity.
Qed.

End MoreArrayFacts.

(** ** More on the policy-input derivers *)

Section MoreDerivers.

Context {Obs Act Block T : Type}.

Import Np.
Local Open Scope R_scope.

Lemma nth_drop_last {A} (a : array2 A) (B T' b t : nat) (d : A) :
  has_shape2 a B T' = true -> (b < B)%nat -> (S t < T')%nat ->
  nth t (nth b (drop_last a) []) d = nth t (nth b a []) d.
Proof.
  intros H Hb Ht. unfold drop_last.
  change (@nil A) with (removelast (@nil A)) at 1.
  rewrite map_nth. apply nth_removelast.
  now rewrite (has_shape2_row a B T' b H Hb).
Qed.

Lemma awr_weights_formula (self : ActorCriticTrainer Obs Act Block T)
    (trajectory : TrajectoryNp Obs Act) (values : array2 R)
    (beta w_max : R) (B L : nat) :
  class_of self = AWR beta w_max ->
  has_shape2 (rewards trajectory) B (L + 1) = true ->
  has_shape2 values B (L + 1) = true ->
  exists weights,
    policy_inputs self trajectory values
    = Ok (Inputs3 (drop_last (observations trajectory))
                  (drop_last (actions trajectory)) weights)
    /\ has_shape2 weights B L = true
    /\ forall b t, (b < B)%nat -> (t < L)%nat ->
         at2 weights b t
         = Rmin (Rtrigo_def.exp
                   ((at2 (rewards trajectory) b t
                     + gamma (task self) * at2 values b (t + 1)
                     - at2 values b t) / beta)) w_max.
Proof.
  intros Hcls Hrew Hval.
  destruct (AWR_td_advantage_spec (gamma (task self)) trajectory values B L
              Hrew Hval) as (td & Htd & Hshape & Hat).
  eexists. unfold policy_inputs. rewrite Hcls.
  unfold AWRTrainer_policy_inputs. rewrite Htd. simpl.
  split; [reflexivity|]. split.
  - unfold minimum, exp, div_scalar. now rewrite !has_shape2_pointwise.
  - intros b t Hb Ht. unfold minimum, exp, div_scalar.
    rewrite (at2_pointwise _ _ B L)
      by (rewrite ?has_shape2_pointwise; assumption).
    rewrite (at2_pointwise _ _ B L)
      by (rewrite ?has_shape2_pointwise; assumption).
    rewrite (at2_pointwise _ _ B L) by assumption.
    now rewrite Hat.
Qed.

(** X1. On a slice of [L + 1] time steps the PPO deriver returns
    (observations, actions, advantages, old_log_probs): observations and
    actions unsliced, advantages [returns[:, :-1] - values[:, :-1]] and
    the recorded log-probabilities [log_probs[:, :-1]] both [L] long; the
    advantages are the ones the A2C deriver computes. *)
Theorem ppo_policy_inputs_lengths
    (self : ActorCriticTrainer Obs Act Block T)
    (trajectory : TrajectoryNp Obs Act) (values : array2 R)
    (ppo_eps : R) (attr : option (array2 R)) (B L : nat) :
  class_of self = PPO ppo_eps attr ->
  has_shape2 (returns trajectory) B (L + 1) = true ->
  has_shape2 (log_probs trajectory) B (L + 1) = true ->
  has_shape2 values B (L + 1) = true ->
  exists advantages old,
    policy_inputs self trajectory values
    = Ok (Inputs4 (observations trajectory) (actions trajectory)
                  advantages old)
    /\ has_shape2 advantages B L = true
    /\ has_shape2 old B L = true
    /\ (forall b t, (b < B)%nat -> (t < L)%nat ->
          at2 advantages b t
          = at2 (returns trajectory) b t - at2 values b t
          /\ at2 old b t = at2 (log_probs trajectory) b t)
    /\ AdvantageActorCriticTrainer_policy_inputs trajectory values
       = Ok (Inputs3 (observations trajectory) (actions trajectory)
                     advantages).
Proof.
  intros Hcls Hret Hlp Hval.
  destruct (sub_drop_last (returns trajectory) values B L Hret Hval)
    as (adv & Hsub & Hshape & Hat).
  exists adv, (drop_last (log_probs trajectory)).
  unfold policy_inputs. rewrite Hcls.
  unfold PPOTrainer_policy_inputs, AdvantageActorCriticTrainer_policy_inputs.
  rewrite Hsub. simpl.
  pose proof (has_shape2_drop_last _ B (L + 1) Hlp) as Hold.
  replace (pred (L + 1)) with L in Hold by lia.
  split; [reflexivity|]. split; [exact Hshape|]. split; [exact Hold|].
  split; [|reflexivity].
  intros b t Hb Ht. split; [now apply Hat|].
  apply (at2_drop_last _ B (L + 1)); (assumption || lia).
Qed.

(** X2. The AWR batch is aligned in time: on a slice of [L + 1] steps the
    observations, the actions and the weights it returns all have shape
    [B, L], and the observations and actions are the first [L] steps of
    the trajectory's. *)
Theorem awr_policy_inputs_aligned
    (self : ActorCriticTrainer Obs Act Block T)
    (trajectory : TrajectoryNp Obs Act) (values : array2 R)
    (beta w_max : R) (B L : nat) :
  class_of self = AWR beta w_max ->
  has_shape2 (observations trajectory) B (L + 1) = true ->
  has_shape2 (actions trajectory) B (L + 1) = true ->
  has_shape2 (rewards trajectory) B (L + 1) = true ->
  has_shape2 values B (L + 1) = true ->
  exists obs act weights,
    policy_inputs self trajectory values = Ok (Inputs3 obs act weights)
    /\ has_shape2 obs B L = true
    /\ has_shape2 act B L = true
    /\ has_shape2 weights B L = true
    /\ forall b t, (b < B)%nat -> (t < L)%nat ->
         (forall d, nth t (nth b obs []) d
                    = nth t (nth b (observations trajectory) []) d)
         /\ (forall d, nth t (nth b act []) d
                       = nth t (nth b (actions trajectory) []) d).
Proof.
  intros Hcls Hobs Hact Hrew Hval.
  destruct (awr_weights_formula self trajectory values beta w_max B L
              Hcls Hrew Hval) as (w & Hw & Hshape & _).
  exists (drop_last (observations trajectory)),
         (drop_last (actions trajectory)), w.
  pose proof (has_shape2_drop_last _ B (L + 1) Hobs) as Ho.
  pose proof (has_shape2_drop_last _ B (L + 1) Hact) as Ha.
  replace (pred (L + 1)) with L in * by lia.
  split; [exact Hw|]. split; [exact Ho|]. split; [exact Ha|].
  split; [exact Hshape|].
  intros b t Hb Ht. split; intros d;
    apply (nth_drop_last _ B (L + 1)); (assumption || lia).
Qed.


End MoreDerivers.

Section MisalignedInputs.

Context {Obs Act Block T : Type}.

Import Np.
Local Open Scope R_scope.

(** X4. The concrete derivers fail loudly on misaligned inputs: when the
    rewards and returns have [Tr] time steps and the value estimates
    [Tv], with [Tr - 1 <> Tv - 1] and neither equal to 1, on a non-empty
    batch, [policy_inputs] of an AWR, A2C or PPO trainer raises
    ValueError (the operands cannot be broadcast). *)
Theorem policy_inputs_misaligned_raises
    (self : ActorCriticTrainer Obs Act Block T)
    (trajectory : TrajectoryNp Obs Act) (values : array2 R)
    (B Tr Tv : nat) :
  class_of self <> Base ->
  (0 < B)%nat ->
  has_shape2 (rewards trajectory) B Tr = true ->
  has_shape2 (returns trajectory) B Tr = true ->
  has_shape2 values B Tv = true ->
  pred Tr <> pred Tv -> pred Tr <> 1%nat -> pred Tv <> 1%nat ->
  policy_inputs self trajectory values = Raise ValueError.
Proof.
  intros Hcls HB Hrew Hret Hval Hne H1 H2.
  pose proof (has_shape2_drop_last _ B Tr Hrew) as Hrew'.
  pose proof (has_shape2_drop_last _ B Tr Hret) as Hret'.
  pose proof (has_shape2_drop_last _ B Tv Hval) as Hlast.
  pose proof (has_shape2_drop_first _ B Tv Hval) as Hfirst.
  assert (Hsub : sub (drop_last (returns trajectory)) (drop_last values)
                 = Raise ValueError)
    by (apply (binop_mismatch Rminus _ _ B (pred Tr) (pred Tv)); assumption).
  unfold policy_inputs. destruct (class_of self) as [|beta w_max| |eps attr].
  - congruence.
  - unfold AWRTrainer_policy_inputs, AWR_td_advantage, add.
    rewrite (binop_mismatch Rplus _ _ B (pred Tr) (pred Tv)); try assumption.
    + reflexivity.
    + unfold scale. now rewrite has_shape2_pointwise.
  - unfold AdvantageActorCriticTrainer_policy_inputs. now rewrite Hsub.
  - unfold PPOTrainer_policy_inputs. now rewrite Hsub.
Qed.

(** X5. Rewards with exactly two time steps are not rejected by the AWR
    deriver: [rewards[:, :-1]] is then one column, which NumPy repeats
    along the time axis, so every weight of a row is computed from that
    row's first reward. *)
Theorem awr_two_step_rewards_are_broadcast
    (self : ActorCriticTrainer Obs Act Block T)
    (trajectory : TrajectoryNp Obs Act) (values : array2 R)
    (beta w_max : R) (B L : nat) :
  class_of self = AWR beta w_max ->
  has_shape2 (rewards trajectory) B 2 = true ->
  has_shape2 values B (L + 1) = true ->
  L <> 1%nat ->
  exists weights,
    policy_inputs self trajectory values
    = Ok (Inputs3 (drop_last (observations trajectory))
                  (drop_last (actions trajectory)) weights)
    /\ has_shape2 weights B L = true
    /\ forall b t, (b < B)%nat -> (t < L)%nat ->
         at2 weights b t
         = Rmin (Rtrigo_def.exp
                   ((at2 (rewards trajectory) b 0
                     + gamma (task self) * at2 values b (t + 1)
                     - at2 values b t) / beta)) w_max.
Proof.
  intros Hcls Hrew Hval HL.
  pose proof (has_shape2_drop_last _ B 2 Hrew) as Hrew'. simpl in Hrew'.
  pose proof (has_shape2_drop_last _ B (L + 1) Hval) as Hlast.
  pose proof (has_shape2_drop_first _ B (L + 1) Hval) as Hfirst.
  replace (pred (L + 1)) with L in * by lia.
  assert (Hsc : has_shape2 (scale (gamma (task self)) (drop_first values))
                  B L = true)
    by (unfold scale; now rewrite has_shape2_pointwise).
  destruct (binop_broadcast_column Rplus _ _ B L Hrew' Hsc HL)
    as (c & Hc & Hcs & Hcat).
  unfold policy_inputs. rewrite Hcls.
  unfold AWRTrainer_policy_inputs, AWR_td_advantage, add.
  rewrite Hc. simpl. unfold sub.
  rewrite (binop_same_shape Rminus _ _ B L Hcs Hlast). simpl.
  pose proof (has_shape2_zip_with Rminus _ _ B L Hcs Hlast) as Htd.
  eexists. split; [reflexivity|]. split.
  - unfold minimum, exp, div_scalar. now rewrite !has_shape2_pointwise.
  - intros b t Hb Ht. unfold minimum, exp, div_scalar.
    rewrite (at2_pointwise _ _ B L)
      by (rewrite ?has_shape2_pointwise; assumption).
    rewrite (at2_pointwise _ _ B L)
      by (rewrite ?has_shape2_pointwise; assumption).
    rewrite (at2_pointwise _ _ B L) by assumption.
    rewrite (at2_zip_with Rminus _ _ B L) by assumption.
    rewrite (Hcat b t Hb Ht).
    unfold scale. rewrite (at2_pointwise _ _ B L) by assumption.
    rewrite at2_drop_first.
    rewrite (at2_drop_last (rewards trajectory) B 2) by (assumption || lia).
    rewrite (at2_drop_last values B (L + 1)) by (assumption || lia).
    now replace (t + 1)%nat with (S t) by lia.
Qed.

End MisalignedInputs.

Section DeriverExamples.

Import Np.
Local Open Scope R_scope.

Lemma ppo_policy_inputs_lengths_witness :
  exists advantages old,
    policy_inputs
      (Fixture.toy_coordinator (PPO 0.2 None) Fixture.toy_value_model)
      Fixture.scenario Fixture.scenario_values
    = Ok (Inputs4 (observations Fixture.scenario)
                  (actions Fixture.scenario) advantages old)
    /\ has_shape2 advantages 2 3 = true
    /\ has_shape2 old 2 3 = true
    /\ at2 advantages 0 1 = 2 - 1.
Proof.
  destruct (ppo_policy_inputs_lengths
              (Fixture.toy_coordinator (PPO 0.2 None) Fixture.toy_value_model)
              Fixture.scenario Fixture.scenario_values 0.2 None 2 3
              eq_refl eq_refl eq_refl eq_refl)
    as (adv & old & H & Ha & Ho & Hat & _).
  exists adv, old. split; [exact H|]. split; [exact Ha|].
  split; [exact Ho|]. apply (Hat 0%nat 1%nat); lia.
Defined.

Lemma awr_policy_inputs_aligned_witness :
  exists obs act weights,
    policy_inputs
      (Fixture.toy_coordinator (AWR 1 20) Fixture.toy_value_model)
      Fixture.scenario Fixture.scenario_values
    = Ok (Inputs3 obs act weights)
    /\ has_shape2 obs 2 3 = true
    /\ has_shape2 act 2 3 = true
    /\ has_shape2 weights 2 3 = true.
Proof.
  destruct (awr_policy_inputs_aligned
              (Fixture.toy_coordinator (AWR 1 20) Fixture.toy_value_model)
              Fixture.scenario Fixture.scenario_values 1 20 2 3
              eq_refl eq_refl eq_refl eq_refl eq_refl)
    as (obs & act & w & H & Ho & Ha & Hw & _).
  exists obs, act, w. repeat split; assumption.
Defined.


(** The specification's end-to-end scenario taken literally: rewards of
    three steps against value estimates of four. *)
Lemma policy_inputs_misaligned_raises_witness :
  policy_inputs
    (Fixture.toy_coordinator (AWR 1 20) Fixture.toy_value_model)
    {| observations := [[10; 11; 12; 13]; [20; 21; 22; 23]]%nat;
       actions := [[0; 1; 0; 1]; [1; 0; 1; 0]]%nat;
       log_probs := [[0; 0; 0]; [0; 0; 0]];
       rewards := [[1; 1; 1]; [0; 0; 0]];
       returns := [[3; 2; 1]; [0; 0; 0]];
       mask := [[1; 1; 1]; [1; 1; 1]] |}
    Fixture.scenario_values
  = Raise ValueError.
Proof.
  apply (policy_inputs_misaligned_raises
           (Fixture.toy_coordinator (AWR 1 20) Fixture.toy_value_model)
           _ Fixture.scenario_values 2 3 4);
    try reflexivity; simpl; (discriminate || lia).
Defined.

Lemma awr_two_step_rewards_are_broadcast_witness :
  exists weights,
    policy_inputs
      (Fixture.toy_coordinator (AWR 1 20) Fixture.toy_value_model)
      {| observations := [[10; 11; 12; 13]; [20; 21; 22; 23]]%nat;
         actions := [[0; 1; 0; 1]; [1; 0; 1; 0]]%nat;
         log_probs := [[0; 0]; [0; 0]];
         rewards := [[1; 7]; [0; 7]];
         returns := [[3; 2]; [0; 0]];
         mask := [[1; 1]; [1; 1]] |}
      Fixture.scenario_values
    = Ok (Inputs3 [[10; 11; 12]; [20; 21; 22]]%nat
                  [[0; 1; 0]; [1; 0; 1]]%nat weights)
    /\ has_shape2 weights 2 3 = true
    /\ at2 weights 0 2
       = Rmin (Rtrigo_def.exp ((1 + 0.99 * 3 - 2) / 1)) 20.
Proof.
  destruct (awr_two_step_rewards_are_broadcast
              (Fixture.toy_coordinator (AWR 1 20) Fixture.toy_value_model)
              {| observations := [[10; 11; 12; 13]; [20; 21; 22; 23]]%nat;
                 actions := [[0; 1; 0; 1]; [1; 0; 1; 0]]%nat;
                 log_probs := [[0; 0]; [0; 0]];
                 rewards := [[1; 7]; [0; 7]];
                 returns := [[3; 2]; [0; 0]];
                 mask := [[1; 1]; [1; 1]] |}
              Fixture.scenario_values 1 20 2 3
              eq_refl eq_refl eq_refl) as (w & H & Hs & Hat); [lia|].
  exists w. split; [exact H|]. split; [exact Hs|].
  apply (Hat 0%nat 2%nat); lia.
Defined.

End DeriverExamples.

(** ** More on the batch streams *)

Section MoreStreams.

Context {Obs Act Block T : Type}.
Context {trainer : SupervisedTrainer Block (batch Obs Act) T}.

Import Np.

(** X6. The value estimates handed to the deriver are the value model's
    outputs with nothing lost or changed: when the output passes the shape
    assertion, putting the trailing axis back on the estimates
    ([values[:, :, None]], as the value batch stream does with its
    targets) gives the model's output again. *)
Theorem policy_batch_values_round_trip
    (self : ActorCriticTrainer Obs Act Block T) (len : nat)
    (np_trajectory : TrajectoryNp Obs Act) :
  has_shape3
    (value_eval_model self (model_weights (value_trainer self))
       (observations np_trajectory))
    (policy_batch_size self) len 1 = true ->
  exists values,
    policy_batch self len np_trajectory
    = policy_inputs self np_trajectory values
    /\ has_shape2 values (policy_batch_size self) len = true
    /\ new_axis values
       = value_eval_model self (model_weights (value_trainer self))
           (observations np_trajectory)
    /\ squeeze 0%R (new_axis values) = Ok values.
Proof.
  intros H.
  destruct (policy_batch_accepts self len np_trajectory H)
    as (values & Hsq & Hshape & Hpb).
  exists values. split; [exact Hpb|]. split; [exact Hshape|].
  split; [now apply new_axis_squeeze | apply squeeze_new_axis].
Qed.

(** X7. With [_max_slice_length] left at [None] the value batch stream
    still yields batches (it passes [None] on to the task), but every
    request to the policy batch stream raises TypeError, from
    [self._max_slice_length + 1], before the task is asked for anything;
    the generator is finished after the first request. *)
Theorem policy_stream_without_slice_length
    (self : ActorCriticTrainer Obs Act Block T) (n : nat) :
  max_slice_length self = None ->
  policy_batches_stream self n = Raise TypeError
  /\ Py.next (policy_batches_stream self) Py.fresh
     = (Raise TypeError, Generator 0 true)
  /\ Py.next (policy_batches_stream self) (Generator 0 true)
     = (Raise StopIteration, Generator 0 true)
  /\ kw_max_slice_length (value_stream_call self) = Passed None
  /\ exists obs ret msk,
       value_batches_stream self n = Ok (ValueBatch obs ret msk).
Proof.
  intros HL.
  assert (H : forall m, policy_batches_stream self m = Raise TypeError).
  { intros m. unfold policy_batches_stream, policy_slice_length.
    now rewrite HL. }
  split; [apply H|]. split.
  - unfold Py.next; simpl. now rewrite H.
  - split; [reflexivity|]. split.
    + unfold value_stream_call; simpl. now rewrite HL.
    + unfold value_batches_stream. eexists _, _, _. reflexivity.
Qed.

End MoreStreams.

Section MoreStreamExamples.

Import Np.

Lemma policy_batch_values_round_trip_witness :
  exists values,
    policy_batch (trainer := Fixture.toy_trainer)
      (Fixture.toy_coordinator A2C Fixture.toy_value_model) 4
      Fixture.scenario
    = policy_inputs (Fixture.toy_coordinator A2C Fixture.toy_value_model)
        Fixture.scenario values
    /\ has_shape2 values 2 4 = true.
Proof.
  destruct (policy_batch_values_round_trip (trainer := Fixture.toy_trainer)
              (Fixture.toy_coordinator A2C Fixture.toy_value_model) 4
              Fixture.scenario eq_refl) as (values & H & Hs & _).
  exists values. split; assumption.
Defined.

Lemma policy_stream_without_slice_length_witness :
  policy_batches_stream (trainer := Fixture.toy_trainer)
    {| class_of := A2C; on_policy := true; n_shared_layers := 0;
       value_batch_size := 2; value_train_steps_per_epoch := 5;
       task := Fixture.toy_task; max_slice_length := None;
       value_trainer := [1; 2; 3];
       value_eval_model := Fixture.toy_value_model;
       policy_trainer := [4; 5; 6; 7];
       policy_batch_size := 2; policy_train_steps_per_epoch := 7 |} 0
  = Raise TypeError.
Proof.
  exact (proj1 (policy_stream_without_slice_length
                  (trainer := Fixture.toy_trainer)
                  {| class_of := A2C; on_policy := true;
                     n_shared_layers := 0;
                     value_batch_size := 2; value_train_steps_per_epoch := 5;
                     task := Fixture.toy_task; max_slice_length := None;
                     value_trainer := [1; 2; 3];
                     value_eval_model := Fixture.toy_value_model;
                     policy_trainer := [4; 5; 6; 7];
                     policy_batch_size := 2;
                     policy_train_steps_per_epoch := 7 |} 0 eq_refl)).
Defined.

End MoreStreamExamples.

(** ** More on [train_epoch] *)

Section MoreTrainEpoch.

Context {Obs Act Block T : Type}.
Context {trainer : SupervisedTrainer Block (batch Obs Act) T}.

Lemma train_epoch_inv (self self' : ActorCriticTrainer Obs Act Block T) :
  train_epoch self = Ok self' ->
  exists s1 s3,
    value_epoch self = Ok s1
    /\ policy_epoch (if (0 <? n_shared_layers self)%Z
                     then copy_value_to_policy s1 else s1) = Ok s3
    /\ self' = (if (0 <? n_shared_layers self)%Z
                then copy_policy_to_value s3 else s3).
Proof.
  intros H. unfold train_epoch in H.
  destruct (value_epoch self) as [s1|e] eqn:Hv; simpl in H; [|discriminate].
  destruct (value_epoch_inv _ _ Hv) as (vt & _ & Hs1).
  assert (Hk1 : n_shared_layers s1 = n_shared_layers self)
    by (subst s1; reflexivity).
  rewrite Hk1 in H.
  destruct (policy_epoch _) as [s3|e] eqn:Hp; simpl in H; [|discriminate].
  destruct (policy_epoch_inv _ _ Hp) as (pt & _ & Hs3).
  assert (Hk3 : n_shared_layers s3 = n_shared_layers self).
  { subst s3. destruct (0 <? n_shared_layers self)%Z; simpl; exact Hk1. }
  rewrite Hk3 in H. inversion H. now exists s1, s3.
Qed.

(** X8. With [n_shared_layers <= 0] (zero, the default, or negative) a
    returning [train_epoch] copies nothing: the value trainer is the result
    of its own epoch, and the policy trainer the result of its epoch
    started from the policy trainer as it was before the call. *)
Theorem train_epoch_without_sharing
    (self self' : ActorCriticTrainer Obs Act Block T) :
  (n_shared_layers self <= 0)%Z ->
  train_epoch self = Ok self' ->
  exists vt pt,
    trainer_train_epoch (value_train_steps_per_epoch self) 1
      (value_batches_stream self) (value_trainer self) = Ok vt
    /\ trainer_train_epoch (policy_train_steps_per_epoch self) 1
         (policy_batches_stream (with_value_trainer self vt))
         (policy_trainer self) = Ok pt
    /\ value_trainer self' = vt
    /\ policy_trainer self' = pt.
Proof.
  intros Hk H.
  destruct (train_epoch_inv self self' H) as (s1 & s3 & Hv & Hp & ->).
  assert (Hoff : (0 <? n_shared_layers self)%Z = false)
    by (apply Z.ltb_ge; exact Hk).
  rewrite Hoff in *.
  destruct (value_epoch_inv _ _ Hv) as (vt & Hvt & ->).
  destruct (policy_epoch_inv _ _ Hp) as (pt & Hpt & ->).
  exists vt, pt. repeat split; assumption.
Qed.


Context {laws : SupervisedTrainerLaws trainer}.

Lemma train_epoch_weights (self self' : ActorCriticTrainer Obs Act Block T) :
  (0 < n_shared_layers self)%Z ->
  train_epoch self = Ok self' ->
  exists vt pt,
    trainer_train_epoch (value_train_steps_per_epoch self) 1
      (value_batches_stream self) (value_trainer self) = Ok vt
    /\ length (model_weights vt) = length (model_weights (value_trainer self))
    /\ length (model_weights pt)
       = length (firstn (Z.to_nat (n_shared_layers self)) (model_weights vt)
                 ++ skipn (Z.to_nat (n_shared_layers self))
                      (model_weights (policy_trainer self)))
    /\ policy_trainer self' = pt
    /\ model_weights (value_trainer self')
       = firstn (Z.to_nat (n_shared_layers self)) (model_weights pt)
         ++ skipn (Z.to_nat (n_shared_layers self)) (model_weights vt).
Proof.
  intros Hk H.
  destruct (train_epoch_steps self self' Hk H) as (s1 & s3 & Hv & Hp & ->).
  destruct (value_epoch_inv _ _ Hv) as (vt & Hvt & ->).
  destruct (policy_epoch_inv _ _ Hp) as (pt & Hpt & ->).
  exists vt, pt. split; [exact Hvt|].
  split; [exact (train_epoch_blocks _ _ _ _ _ Hvt)|].
  split.
  - rewrite (train_epoch_blocks _ _ _ _ _ Hpt).
    unfold copy_value_to_policy; simpl. now rewrite model_weights_set.
  - split; [reflexivity|].
    unfold copy_policy_to_value; simpl. now rewrite model_weights_set.
Qed.

(** X10. When both models have at least [n_shared_layers] parameter
    blocks, [train_epoch] keeps the number of blocks of each model. *)
Theorem train_epoch_keeps_block_counts
    (self self' : ActorCriticTrainer Obs Act Block T) :
  (0 < n_shared_layers self)%Z ->
  Z.to_nat (n_shared_layers self)
    <= length (model_weights (value_trainer self)) ->
  Z.to_nat (n_shared_layers self)
    <= length (model_weights (policy_trainer self)) ->
  train_epoch self = Ok self' ->
  length (model_weights (value_trainer self'))
  = length (model_weights (value_trainer self))
  /\ length (model_weights (policy_trainer self'))
     = length (model_weights (policy_trainer self)).
Proof.
  intros Hk Hv Hp H.
  destruct (train_epoch_weights self self' Hk H)
    as (vt & pt & _ & Hlv & Hlp & -> & ->).
  rewrite List.length_app, List.length_firstn, List.length_skipn in *.
  lia.
Qed.

(** X11. When the value model has fewer than [n_shared_layers] blocks the
    slice assignments change the models' structure instead of failing:
    the policy model is left with [lv + (lp - k)] blocks, and the value
    model becomes the first [k] blocks of the policy model and nothing
    else. *)
Theorem train_epoch_with_short_value_model
    (self self' : ActorCriticTrainer Obs Act Block T) :
  (0 < n_shared_layers self)%Z ->
  length (model_weights (value_trainer self))
    < Z.to_nat (n_shared_layers self) ->
  train_epoch self = Ok self' ->
  length (model_weights (policy_trainer self'))
  = length (model_weights (value_trainer self))
    + (length (model_weights (policy_trainer self))
       - Z.to_nat (n_shared_layers self))
  /\ model_weights (value_trainer self')
     = firstn (Z.to_nat (n_shared_layers self))
         (model_weights (policy_trainer self')).
Proof.
  intros Hk Hv H.
  destruct (train_epoch_weights self self' Hk H)
    as (vt & pt & _ & Hlv & Hlp & -> & ->).
  rewrite List.length_app, List.length_firstn, List.length_skipn in Hlp.
  split; [lia|].
  rewrite (List.skipn_all2 (model_weights vt)) by lia.
  apply List.app_nil_r.
Qed.

(** X12. The exchange reaches the shared prefix only: when both models
    have at least [n_shared_layers] blocks, the value model after the call
    is the policy model's first [k] blocks followed by the blocks past [k]
    that its own training epoch produced. *)
Theorem train_epoch_keeps_private_blocks
    (self self' : ActorCriticTrainer Obs Act Block T) :
  (0 < n_shared_layers self)%Z ->
  Z.to_nat (n_shared_layers self)
    <= length (model_weights (value_trainer self)) ->
  Z.to_nat (n_shared_layers self)
    <= length (model_weights (policy_trainer self)) ->
  train_epoch self = Ok self' ->
  exists vt,
    trainer_train_epoch (value_train_steps_per_epoch self) 1
      (value_batches_stream self) (value_trainer self) = Ok vt
    /\ skipn (Z.to_nat (n_shared_layers self))
         (model_weights (value_trainer self'))
       = skipn (Z.to_nat (n_shared_layers self)) (model_weights vt)
    /\ firstn (Z.to_nat (n_shared_layers self))
         (model_weights (value_trainer self'))
       = firstn (Z.to_nat (n_shared_layers self))
           (model_weights (policy_trainer self')).
Proof.
  intros Hk Hv Hp H.
  destruct (train_epoch_weights self self' Hk H)
    as (vt & pt & Hvt & Hlv & Hlp & -> & ->).
  rewrite List.length_app, List.length_firstn, List.length_skipn in Hlp.
  exists vt. split; [exact Hvt|].
  assert (Hlen : length (firstn (Z.to_nat (n_shared_layers self))
                           (model_weights pt))
                 = Z.to_nat (n_shared_layers self))
    by (rewrite List.length_firstn; lia).
  split.
  - rewrite List.skipn_app, Hlen, Nat.sub_diag.
    rewrite List.skipn_all2 by lia. reflexivity.
  - rewrite List.firstn_app, Hlen, Nat.sub_diag, List.firstn_firstn,
      Nat.min_id.
    simpl. apply List.app_nil_r.
Qed.

End MoreTrainEpoch.

Section MoreTrainEpochExamples.

Lemma toy_train_epoch_runs (k : Z) :
  exists self',
    train_epoch (trainer := Fixture.toy_trainer)
      (Fixture.toy_coordinator_with k (Some 3)) = Ok self'.
Proof.
  unfold train_epoch, value_epoch. simpl.
  destruct (0 <? k)%Z; eexists; reflexivity.
Qed.

Lemma train_epoch_without_sharing_witness :
  exists self',
    train_epoch (trainer := Fixture.toy_trainer)
      (Fixture.toy_coordinator_with 0 (Some 3)) = Ok self'
    /\ value_trainer self' = [6; 7; 8]
    /\ policy_trainer self' = [11; 12; 13; 14].
Proof.
  destruct (toy_train_epoch_runs 0) as (self' & Hrun).
  exists self'. split; [exact Hrun|].
  destruct (train_epoch_without_sharing (trainer := Fixture.toy_trainer)
              (Fixture.toy_coordinator_with 0 (Some 3)) self'
              ltac:(simpl; lia) Hrun) as (vt & pt & Hvt & Hpt & -> & ->).
  simpl in Hvt, Hpt. inversion Hvt; subst vt.
  simpl in Hpt. inversion Hpt. split; reflexivity.
Defined.


Lemma train_epoch_keeps_block_counts_witness :
  exists self',
    train_epoch (trainer := Fixture.toy_trainer)
      (Fixture.toy_coordinator_with 2 (Some 3)) = Ok self'
    /\ length (value_trainer self') = 3
    /\ length (policy_trainer self') = 4.
Proof.
  destruct (toy_train_epoch_runs 2) as (self' & Hrun).
  exists self'. split; [exact Hrun|].
  exact (train_epoch_keeps_block_counts (trainer := Fixture.toy_trainer)
           (laws := toy_trainer_laws)
           (Fixture.toy_coordinator_with 2 (Some 3)) self'
           eq_refl ltac:(simpl; lia) ltac:(simpl; lia) Hrun).
Defined.

Lemma train_epoch_with_short_value_model_witness :
  exists self',
    train_epoch (trainer := Fixture.toy_trainer)
      (Fixture.toy_coordinator_with 4 (Some 3)) = Ok self'
    /\ length (policy_trainer self') = 3
    /\ value_trainer self' = firstn 4 (policy_trainer self').
Proof.
  destruct (toy_train_epoch_runs 4) as (self' & Hrun).
  exists self'. split; [exact Hrun|].
  exact (train_epoch_with_short_value_model (trainer := Fixture.toy_trainer)
           (laws := toy_trainer_laws)
           (Fixture.toy_coordinator_with 4 (Some 3)) self'
           eq_refl ltac:(simpl; lia) Hrun).
Defined.

Lemma train_epoch_keeps_private_blocks_witness :
  exists self',
    train_epoch (trainer := Fixture.toy_trainer)
      (Fixture.toy_coordinator_with 2 (Some 3)) = Ok self'
    /\ skipn 2 (value_trainer self') = [8].
Proof.
  destruct (toy_train_epoch_runs 2) as (self' & Hrun).
  exists self'. split; [exact Hrun|].
  destruct (train_epoch_keeps_private_blocks (trainer := Fixture.toy_trainer)
              (laws := toy_trainer_laws)
              (Fixture.toy_coordinator_with 2 (Some 3)) self'
              eq_refl ltac:(simpl; lia) ltac:(simpl; lia) Hrun)
    as (vt & Hvt & Htail & _).
  simpl in Hvt. inversion Hvt; subst vt. exact Htail.
Defined.

End MoreTrainEpochExamples.

(** ** More on the PPO loss *)

Section MeanFacts.

Import Np.
Local Open Scope R_scope.

Lemma sum_app (l k : list R) :
  fold_right Rplus 0 (l ++ k) = fold_right Rplus 0 l + fold_right Rplus 0 k.
Proof. induction l as [|x l IH]; simpl; [lra | rewrite IH; lra]. Qed.

Lemma sum_le (l k : list R) :
  length l = length k ->
  (forall j, (j < length l)%nat -> nth j l 0 <= nth j k 0) ->
  fold_right Rplus 0 l <= fold_right Rplus 0 k.
Proof.
  revert k; induction l as [|x l IH]; intros [|y k] Hlen H; simpl in *;
    try discriminate; [lra|].
  pose proof (H 0%nat ltac:(lia)) as H0. simpl in H0.
  assert (Hrest : fold_right Rplus 0 l <= fold_right Rplus 0 k).
  { apply IH; [lia|]. intros j Hj. apply (H (S j)). lia. }
  lra.
Qed.

Lemma total_cons (r : list R) (a : array2 R) :
  total (r :: a) = fold_right Rplus 0 r + total a.
Proof. unfold total. simpl. apply sum_app. Qed.

Lemma size_shape (a : array2 R) (B T : nat) :
  has_shape2 a B T = true -> size a = (B * T)%nat.
Proof.
  revert a; induction B as [|B IH]; intros a Ha.
  - apply has_shape2_nil_inv in Ha. now subst.
  - apply has_shape2_cons_inv in Ha as (r & a' & -> & Hr & Ha).
    unfold size in *. simpl. rewrite List.length_app, (IH a' Ha). lia.
Qed.

(** Entry by entry below, hence below in total. *)
Lemma total_le (a b : array2 R) (B T : nat) :
  has_shape2 a B T = true -> has_shape2 b B T = true ->
  (forall i j, (i < B)%nat -> (j < T)%nat -> at2 a i j <= at2 b i j) ->
  total a <= total b.
Proof.
  revert a b; induction B as [|B IH]; intros a b Ha Hb H.
  - apply has_shape2_nil_inv in Ha, Hb. subst. lra.
  - apply has_shape2_cons_inv in Ha as (r1 & a' & -> & Hr1 & Ha).
    apply has_shape2_cons_inv in Hb as (r2 & b' & -> & Hr2 & Hb).
    rewrite !total_cons.
    assert (Hrow : fold_right Rplus 0 r1 <= fold_right Rplus 0 r2).
    { apply sum_le; [congruence|]. intros j Hj.
      apply (H 0%nat j); lia. }
    assert (Hrest : total a' <= total b').
    { apply IH; try assumption. intros i j Hi Hj.
      apply (H (S i) j); lia. }
    lra.
Qed.

Lemma Rinv_INR_nonneg (n : nat) : 0 <= / INR n.
Proof.
  destruct n as [|n].
  - simpl. rewrite Rinv_0. lra.
  - left. apply Rinv_0_lt_compat. apply lt_0_INR. lia.
Qed.

Lemma mean_le (a b : array2 R) (B T : nat) :
  has_shape2 a B T = true -> has_shape2 b B T = true ->
  (forall i j, (i < B)%nat -> (j < T)%nat -> at2 a i j <= at2 b i j) ->
  mean a <= mean b.
Proof.
  intros Ha Hb H. unfold mean.
  rewrite (size_shape a B T Ha), (size_shape b B T Hb).
  unfold Rdiv. apply Rmult_le_compat_r; [apply Rinv_INR_nonneg|].
  exact (total_le a b B T Ha Hb H).
Qed.

End MeanFacts.

Section MorePPOLoss.

Import Np.
Local Open Scope R_scope.

(** The loss in closed form, for arrays of one shape and the attribute
    set. *)
Lemma ppo_loss_objective (ppo_eps : R)
    (new_log_probs advantages self_old ignored : array2 R) (B T' : nat) :
  has_shape2 new_log_probs B T' = true ->
  has_shape2 advantages B T' = true ->
  has_shape2 self_old B T' = true ->
  exists objective,
    ppo_loss ppo_eps (Some self_old) new_log_probs advantages ignored
    = Ok (- mean objective)
    /\ has_shape2 objective B T' = true
    /\ forall b t, (b < B)%nat -> (t < T')%nat ->
         at2 objective b t
         = Rmin (Rtrigo_def.exp (at2 new_log_probs b t)
                 / Rtrigo_def.exp (at2 self_old b t)
                 * at2 advantages b t)
                (Rmin (Rmax (1 - ppo_eps)
                         (Rtrigo_def.exp (at2 new_log_probs b t)
                          / Rtrigo_def.exp (at2 self_old b t)))
                      (1 + ppo_eps)
                 * at2 advantages b t).
Proof.
  intros Hnew Hadv Hold. unfold ppo_loss; simpl.
  assert (Hen : has_shape2 (exp new_log_probs) B T' = true)
    by (unfold exp; now rewrite has_shape2_pointwise).
  assert (Heo : has_shape2 (exp self_old) B T' = true)
    by (unfold exp; now rewrite has_shape2_pointwise).
  unfold div, mul.
  rewrite (binop_same_shape Rdiv _ _ B T' Hen Heo). simpl.
  set (ratio := zip_with (zip_with Rdiv) (exp new_log_probs) (exp self_old)).
  assert (Hr : has_shape2 ratio B T' = true)
    by (now apply has_shape2_zip_with).
  assert (Hc : has_shape2 (clamp (1 - ppo_eps) ratio (1 + ppo_eps)) B T'
               = true)
    by (unfold clamp; now rewrite has_shape2_pointwise).
  rewrite (binop_same_shape Rmult _ _ B T' Hr Hadv). simpl.
  rewrite (binop_same_shape Rmult _ _ B T' Hc Hadv). simpl.
  pose proof (has_shape2_zip_with Rmult _ _ B T' Hr Hadv) as Hu.
  pose proof (has_shape2_zip_with Rmult _ _ B T' Hc Hadv) as Hcl.
  rewrite (stack2_same_shape _ _ B T' Hu Hcl). simpl.
  eexists. split; [reflexivity|].
  split; [now apply has_shape2_zip_with|].
  intros b t Hb Ht.
  rewrite (at2_zip_with Rmin _ _ B T') by assumption.
  rewrite !(at2_zip_with Rmult _ _ B T') by assumption.
  unfold clamp. rewrite (at2_pointwise _ _ B T') by assumption.
  unfold ratio. rewrite (at2_zip_with Rdiv _ _ B T') by assumption.
  unfold exp. rewrite !(at2_pointwise _ _ B T') by assumption.
  reflexivity.
Qed.

(** X14. The PPO objective is pessimistic: whatever the ratio and the
    sign of the advantages, the loss is never below minus the mean of the
    unclipped surrogate [exp(new) / exp(old) * advantage]. *)
Theorem ppo_loss_at_least_unclipped (ppo_eps : R)
    (new_log_probs advantages self_old ignored : array2 R) (B T' : nat) :
  has_shape2 new_log_probs B T' = true ->
  has_shape2 advantages B T' = true ->
  has_shape2 self_old B T' = true ->
  exists loss ratio unclipped,
    ppo_loss ppo_eps (Some self_old) new_log_probs advantages ignored
    = Ok loss
    /\ div (exp new_log_probs) (exp self_old) = Ok ratio
    /\ mul ratio advantages = Ok unclipped
    /\ - mean unclipped <= loss.
Proof.
  intros Hnew Hadv Hold.
  destruct (ppo_loss_objective ppo_eps new_log_probs advantages self_old
              ignored B T' Hnew Hadv Hold) as (obj & Hloss & Hshape & Hat).
  assert (Hen : has_shape2 (exp new_log_probs) B T' = true)
    by (unfold exp; now rewrite has_shape2_pointwise).
  assert (Heo : has_shape2 (exp self_old) B T' = true)
    by (unfold exp; now rewrite has_shape2_pointwise).
  pose proof (has_shape2_zip_with Rdiv _ _ B T' Hen Heo) as Hr.
  pose proof (has_shape2_zip_with Rmult _ _ B T' Hr Hadv) as Hu.
  eexists _, _, _. split; [exact Hloss|].
  split; [exact (binop_same_shape Rdiv _ _ B T' Hen Heo)|].
  split; [exact (binop_same_shape Rmult _ _ B T' Hr Hadv)|].
  apply Ropp_le_contravar.
  apply (mean_le _ _ B T' Hshape Hu).
  intros b t Hb Ht. rewrite (Hat b t Hb Ht).
  rewrite (at2_zip_with Rmult _ _ B T') by assumption.
  rewrite (at2_zip_with Rdiv _ _ B T') by assumption.
  unfold exp. rewrite !(at2_pointwise _ _ B T') by assumption.
  apply Rmin_l.
Qed.

End MorePPOLoss.

Section MorePPOLossExamples.

Import Np.
Local Open Scope R_scope.

Lemma ppo_loss_at_least_unclipped_witness :
  exists loss ratio unclipped,
    ppo_loss 0.2 (Some [[0; 0]]) [[1; -1]] [[2; -3]] [[9; 9]] = Ok loss
    /\ div (exp [[1; -1]]) (exp [[0; 0]]) = Ok ratio
    /\ mul ratio [[2; -3]] = Ok unclipped
    /\ - mean unclipped <= loss.
Proof.
  exact (ppo_loss_at_least_unclipped 0.2 [[1; -1]] [[2; -3]] [[0; 0]]
           [[9; 9]] 1 2 eq_refl eq_refl eq_refl).
Defined.

End MorePPOLossExamples.

(** ** More on construction *)

Section MoreConstruction.

Context {Obs Act Block T : Type}.
Context {ctors : Constructors Obs Act Block T}.

Local Open Scope string_scope.

(** X16. Unlike the AWR constructor, the A2C and PPO constructors hand the
    caller's keywords to the base constructor unchanged: the on-policy
    flag of the trainer is the truth value of the [on_policy] keyword, and
    True when the keyword is absent, in which case the policy batch stream
    asks for the most recent epoch only. *)
Theorem a2c_ppo_init_on_policy (task0 : RLTask Obs Act) (ppo_eps : R)
    (kwargs : gmap string value)
    (self : ActorCriticTrainer Obs Act Block T) :
  AdvantageActorCriticTrainer_init task0 kwargs = Ok self
  \/ PPOTrainer_init task0 ppo_eps kwargs = Ok self ->
  (forall v, kwargs !! "on_policy" = Some v -> on_policy self = truthy v)
  /\ (kwargs !! "on_policy" = None ->
      on_policy self = true
      /\ forall len,
           kw_epochs (policy_stream_call self len)
           = Passed (Some [(-1)%Z])).
Proof.
  intros H.
  assert (Hon : on_policy self = kw_bool "on_policy" true kwargs).
  { destruct H as [H | H];
      [unfold AdvantageActorCriticTrainer_init in H
      | unfold PPOTrainer_init in H];
      now apply ActorCriticTrainer_init_inv in H as [_ H]. }
  unfold kw_bool in Hon. split.
  - intros v Hv. now rewrite Hv in Hon.
  - intros Hnone. rewrite Hnone in Hon. split; [exact Hon|].
    intros len. unfold policy_stream_call; simpl. now rewrite Hon.
Qed.

(** X17. A value model is required: when [value_model] is omitted (or
    passed as [None]) every constructor raises TypeError, the base one on
    calling [None] as the model factory and so the A2C, PPO and AWR ones
    that go through it. *)
Theorem init_without_value_model (cls : subclass) (task0 : RLTask Obs Act)
    (beta w_max ppo_eps : R) (kwargs : gmap string value) :
  default PyNone (kwargs !! "value_model") = PyNone ->
  ActorCriticTrainer_init cls task0 kwargs = Raise TypeError
  /\ AdvantageActorCriticTrainer_init task0 kwargs = Raise TypeError
  /\ PPOTrainer_init task0 ppo_eps kwargs = Raise TypeError
  /\ AWRTrainer_init task0 beta w_max kwargs = Raise TypeError.
Proof.
  intros Hm.
  assert (Hbase : forall c kw,
    default PyNone (kw !! "value_model") = PyNone ->
    ActorCriticTrainer_init c task0 kw = Raise TypeError).
  { intros c kw Hkw. unfold ActorCriticTrainer_init.
    unfold value_output_dir.
    destruct (foldr delete kw named_parameters !! "output_dir")
      as [[| | | |d|]|]; cbn [Py.bind]; try reflexivity;
      rewrite Hkw; reflexivity. }
  split; [now apply Hbase|]. split; [now apply Hbase|].
  split; [now apply Hbase|].
  unfold AWRTrainer_init, call_with_keyword.
  destruct (kwargs !! "on_policy") as [v|]; [reflexivity|].
  cbn [Py.bind]. apply Hbase.
  rewrite lookup_insert_ne by discriminate. exact Hm.
Qed.

End MoreConstruction.

Section MoreConstructionExamples.

Local Open Scope string_scope.

Lemma toy_a2c_init :
  exists self,
    AdvantageActorCriticTrainer_init (ctors := Fixture.toy_ctors)
      Fixture.toy_task
      {[ "value_model" := PyObj 7 ]} = Ok self.
Proof.
  apply (ActorCriticTrainer_init_returns (ctors := Fixture.toy_ctors)
           _ _ _ None
           {| pts_task := Fixture.toy_task;
              pts_max_slice_length := Some 1;
              pts_policy_trainer := [4; 5; 6; 7];
              pts_policy_batch_size := 64;
              pts_policy_train_steps_per_epoch := 500 |}).
  - vm_compute. reflexivity.
  - rewrite lookup_singleton_eq. discriminate.
  - vm_compute. reflexivity.
Qed.

Lemma a2c_ppo_init_on_policy_witness :
  exists self,
    AdvantageActorCriticTrainer_init (ctors := Fixture.toy_ctors)
      Fixture.toy_task
      {[ "value_model" := PyObj 7 ]} = Ok self
    /\ on_policy self = true
    /\ kw_epochs (policy_stream_call self 4) = Passed (Some [(-1)%Z]).
Proof.
  destruct toy_a2c_init as (self & Hself).
  exists self. split; [exact Hself|].
  destruct (a2c_ppo_init_on_policy (ctors := Fixture.toy_ctors)
              Fixture.toy_task 0.2%R {[ "value_model" := PyObj 7 ]} self
              (or_introl Hself)) as (_ & Hdef).
  destruct Hdef as (Hon & Hep).
  - apply lookup_singleton_ne. discriminate.
  - split; [exact Hon | apply Hep].
Defined.

Lemma init_without_value_model_witness :
  AdvantageActorCriticTrainer_init (ctors := Fixture.toy_ctors)
    Fixture.toy_task {[ "max_slice_length" := PyInt 3 ]}
  = Raise TypeError.
Proof.
  destruct (init_without_value_model (ctors := Fixture.toy_ctors)
              A2C Fixture.toy_task 1%R 20%R 0.2%R
              {[ "max_slice_length" := PyInt 3 ]}) as (_ & H & _).
  - rewrite lookup_singleton_ne by discriminate. reflexivity.
  - exact H.
Defined.

End MoreConstructionExamples.

(** ** The policy batch stream of an AWR trainer, end to end *)

Section AWRStream.

Context {Obs Act Block T : Type}.
Context {trainer : SupervisedTrainer Block (batch Obs Act) T}.

Import Np.
Local Open Scope R_scope.

(** X18. For an AWR trainer with slice length [L], whenever the value
    model's output on the task's batch passes the shape assertion and the
    batch's rewards have shape [batch, L + 1], the stream's [n]-th element
    is (observations[:, :-1], actions[:, :-1], weights) with weights of
    shape [batch, L] computed by the AWR formula from the value model's
    outputs under the value trainer's current weights, and the generator
    moves on to the next element. *)
Theorem awr_policy_batches_stream_element
    (self : ActorCriticTrainer Obs Act Block T)
    (beta w_max : R) (L n : nat) :
  class_of self = AWR beta w_max ->
  max_slice_length self = Some L ->
  has_shape3
    (value_eval_model self (model_weights (value_trainer self))
       (observations (trajectory_batch_stream (task self)
                        (policy_stream_call self (L + 1)) n)))
    (policy_batch_size self) (L + 1) 1 = true ->
  has_shape2
    (rewards (trajectory_batch_stream (task self)
                (policy_stream_call self (L + 1)) n))
    (policy_batch_size self) (L + 1) = true ->
  exists values weights,
    new_axis values
    = value_eval_model self (model_weights (value_trainer self))
        (observations (trajectory_batch_stream (task self)
                         (policy_stream_call self (L + 1)) n))
    /\ policy_batches_stream self n
       = Ok (Inputs3
               (drop_last (observations
                             (trajectory_batch_stream (task self)
                                (policy_stream_call self (L + 1)) n)))
               (drop_last (actions
                             (trajectory_batch_stream (task self)
                                (policy_stream_call self (L + 1)) n)))
               weights)
    /\ Py.next (policy_batches_stream self) (Generator n false)
       = (policy_batches_stream self n, Generator (S n) false)
    /\ has_shape2 weights (policy_batch_size self) L = true
    /\ forall b t, (b < policy_batch_size self)%nat -> (t < L)%nat ->
         at2 weights b t
         = Rmin (Rtrigo_def.exp
                   ((at2 (rewards (trajectory_batch_stream (task self)
                                      (policy_stream_call self (L + 1)) n))
                       b t
                     + gamma (task self) * at2 values b (t + 1)
                     - at2 values b t) / beta)) w_max.
Proof.
  intros Hcls HL Hout Hrew.
  destruct (policy_batch_accepts self (L + 1) _ Hout)
    as (values & Hsq & Hshape & Hpb).
  destruct (awr_weights_formula self _ values beta w_max
              (policy_batch_size self) L Hcls Hrew Hshape)
    as (w & Hpi & Hw & Hat).
  assert (Hn : policy_batches_stream self n
               = policy_inputs self
                   (trajectory_batch_stream (task self)
                      (policy_stream_call self (L + 1)) n) values)
    by (now rewrite (policy_batches_stream_unfold self L n HL), Hpb).
  rewrite Hpi in Hn.
  exists values, w. split; [now apply new_axis_squeeze|].
  split; [exact Hn|]. split.
  - unfold Py.next; simpl. now rewrite Hn.
  - split; [exact Hw | exact Hat].
Qed.

End AWRStream.

Section AWRStreamExample.

Import Np.
Local Open Scope R_scope.

Lemma awr_policy_batches_stream_element_witness :
  exists weights,
    policy_batches_stream (trainer := Fixture.toy_trainer)
      (Fixture.toy_coordinator (AWR 1 20) Fixture.toy_value_model) 0
    = Ok (Inputs3 [[0; 0; 0]; [0; 0; 0]]%nat [[0; 0; 0]; [0; 0; 0]]%nat
                  weights)
    /\ has_shape2 weights 2 3 = true
    /\ at2 weights 1 2 = Rmin (Rtrigo_def.exp ((1 + 0.99 * 0 - 0) / 1)) 20.
Proof.
  destruct (awr_policy_batches_stream_element
              (trainer := Fixture.toy_trainer)
              (Fixture.toy_coordinator (AWR 1 20) Fixture.toy_value_model)
              1 20 3 0 eq_refl eq_refl eq_refl eq_refl)
    as (values & w & Hv & Hn & _ & Hw & Hat).
  exists w. split; [exact Hn|]. split; [exact Hw|].
  rewrite (Hat 1%nat 2%nat) by (simpl; lia).
  assert (Hval : values = [[0; 0; 0; 0]; [0; 0; 0; 0]]).
  { assert (Hsq : squeeze 0 (new_axis values) = Ok values)
      by apply squeeze_new_axis.
    rewrite Hv in Hsq. simpl in Hsq. now inversion Hsq. }
  subst values. reflexivity.
Defined.

End AWRStreamExample.
